(** * Route reconstruction and segmentation: a shallow embedding

    The development follows three source files of the tracker:

    - [fixed_map_generator.py], function [create_direct_map]: temporal
      merge, nearest-match, segmentation loop and rendering of the route;
    - [bot.py], function [handle_location]: the movement classifier and
      its per-subject accumulator;
    - [utils.py], function [create_map_for_user]: the render-time movement
      status of a stored point.

    Python floats are idealised as real numbers ([R]); Python strings are
    taken over ASCII characters, so that [len] and slicing agree with the
    byte strings of the standard library. *)

From Stdlib Require Import List String Ascii ZArith Lia Bool.
From Stdlib Require Import Permutation Sorted OrderedTypeEx.
From Stdlib Require Import Reals Lra.
From Stdlib Require DecimalString DecimalN.
Import ListNotations.

Set Implicit Arguments.

(** ** Exceptions and the built-in sort *)

Module Py.

(** A computation that may raise: [None] stands for an uncaught
    exception. *)
Definition bind {A B : Type} (m : option A) (f : A -> option B) : option B :=
  match m with
  | Some a => f a
  | None => None
  end.

Notation "x <- m ;; k" := (bind m (fun x => k))
  (at level 61, m at next level, right associativity).

Section Sort.
Variables (A K : Type).
(** [lt a b] is Python's [a < b] on keys; [None] is the [TypeError]
    raised for operands that do not support the comparison. *)
Variable lt : K -> K -> option bool.
Variable key : A -> K.

(** [list.sort(key=...)] and [sorted(..., key=...)] are stable and
    compare keys with [<] only.  The element [x] stood before every
    element of [l] in the input, so it stays before the first element
    that is not smaller than it. *)
Fixpoint insert (x : A) (l : list A) : option (list A) :=
  match l with
  | [] => Some [x]
  | y :: l' =>
      b <- lt (key y) (key x) ;;
      if b then (r <- insert x l' ;; Some (y :: r))
      else Some (x :: y :: l')
  end.

Fixpoint sort (l : list A) : option (list A) :=
  match l with
  | [] => Some []
  | x :: l' => s <- sort l' ;; insert x s
  end.

(** [a] may stand before [b] in a sorted list: [b < a] is false. *)
Definition not_after (a b : A) : Prop := lt (key b) (key a) = Some false.
End Sort.

End Py.

Import Py.

(** ** Timestamps *)

Module Time.

(** A naive [datetime.datetime]. *)
Record datetime := mkdt {
  year : Z; month : Z; day : Z;
  hour : Z; minute : Z; second : Z; microsecond : Z
}.

Definition fields (d : datetime) : list Z :=
  [year d; month d; day d; hour d; minute d; second d; microsecond d].

(** Naive datetimes compare field by field, most significant first. *)
Fixpoint lex_compare (a b : list Z) : comparison :=
  match a, b with
  | [], [] => Eq
  | [], _ :: _ => Lt
  | _ :: _, [] => Gt
  | x :: a', y :: b' =>
      match (x ?= y)%Z with
      | Eq => lex_compare a' b'
      | c => c
      end
  end.

Definition dt_ltb (a b : datetime) : bool :=
  match lex_compare (fields a) (fields b) with
  | Lt => true
  | _ => false
  end.

(** A timestamp as the database row or the merge carries it: a string
    or a datetime object. *)
Inductive pytime :=
| PStr (s : string)
| PDate (d : datetime).

Definition is_str (t : pytime) : bool :=
  match t with PStr _ => true | PDate _ => false end.

(** [a < b] on timestamps: strings compare lexicographically, datetimes
    chronologically, and a string against a datetime raises
    [TypeError]. *)
Definition time_lt (a b : pytime) : option bool :=
  match a, b with
  | PStr x, PStr y => Some (String.ltb x y)
  | PDate x, PDate y => Some (dt_ltb x y)
  | _, _ => None
  end.

(** [s[:19]] *)
Definition slice19 (s : string) : string := substring 0 19 s.

(** [len(str(t)[:19])]: [str] of a datetime is
    [YYYY-MM-DD HH:MM:SS] followed by an optional fraction, so its
    first 19 characters are always there. *)
Definition len_str19 (t : pytime) : Z :=
  match t with
  | PStr s => Z.of_nat (String.length (slice19 s))
  | PDate _ => 19
  end.

(** *** [datetime.strptime(s, '%Y-%m-%d %H:%M:%S')] on zero-padded input

    The general development takes [strptime] as a parameter.  The
    concrete scenarios use this parser, which accepts exactly the
    zero-padded 19-character form written by the repository
    ([strftime] with the same format, SQLite's [CURRENT_TIMESTAMP]).
    Python also accepts fields written without padding and other white
    space between date and time; the scenarios contain no such string. *)

Definition digit (c : ascii) : option Z :=
  let n := nat_of_ascii c in
  if andb (Nat.leb 48 n) (Nat.leb n 57) then Some (Z.of_nat (n - 48)) else None.

Definition two (a b : ascii) : option Z :=
  x <- digit a ;; y <- digit b ;; Some (10 * x + y)%Z.

Definition is_char (c : ascii) (n : nat) : bool := Nat.eqb (nat_of_ascii c) n.

Definition is_leap (y : Z) : bool :=
  andb (Z.eqb (y mod 4) 0) (orb (negb (Z.eqb (y mod 100) 0)) (Z.eqb (y mod 400) 0)).

Definition days_in_month (y m : Z) : Z :=
  if Z.eqb m 2 then (if is_leap y then 29 else 28)
  else if orb (orb (Z.eqb m 4) (Z.eqb m 6)) (orb (Z.eqb m 9) (Z.eqb m 11)) then 30
  else 31.

Definition valid_datetime (d : datetime) : bool :=
  (1 <=? year d)%Z && (1 <=? month d)%Z && (month d <=? 12)%Z
  && (1 <=? day d)%Z && (day d <=? days_in_month (year d) (month d))%Z
  && (hour d <=? 23)%Z && (minute d <=? 59)%Z && (second d <=? 59)%Z.

Definition strptime_padded (s : string) : option datetime :=
  match list_ascii_of_string s with
  | [y1; y2; y3; y4; s1; m1; m2; s2; d1; d2; sp; h1; h2; c1; n1; n2; c2; e1; e2] =>
      if is_char s1 45 && is_char s2 45 && is_char sp 32
         && is_char c1 58 && is_char c2 58
      then
        yh <- two y1 y2 ;; yl <- two y3 y4 ;;
        mo <- two m1 m2 ;; da <- two d1 d2 ;;
        ho <- two h1 h2 ;; mi <- two n1 n2 ;; se <- two e1 e2 ;;
        let d := mkdt (100 * yh + yl) mo da ho mi se 0 in
        if valid_datetime d then Some d else None
      else None
  | _ => None
  end.

End Time.

Import Time.


(** ** [fixed_map_generator.py]: [create_direct_map] *)

Module DirectMap.

Local Open Scope string_scope.

Definition point : Type := (R * R)%type.

(** A row of [valid_locations]:
    [(lat, lon, time_str, session_id, loc_type)], coordinates already
    converted by [float] and range-checked by [get_locations_from_db]. *)
Record location_row := mkloc {
  loc_lat : R; loc_lon : R; loc_time : pytime;
  loc_session : string; loc_type : string
}.

(** A row of [status_history]: [(id, user_id, status, timestamp)]. *)
Record status_row := mkstatus {
  st_id : Z; st_user : Z; st_status : string; st_time : pytime
}.

(** An entry of [location_events]:
    [(time_key, lat, lon, loc_type, timestamp)]. *)
Record location_event := mkle {
  le_key : pytime; le_lat : R; le_lon : R;
  le_type : string; le_timestamp : pytime
}.

(** An entry of [all_events]: [("status", time_key, status)] or
    [("location", time_key, lat, lon, loc_type, timestamp)]. *)
Inductive event :=
| EStatus (time_key : pytime) (status : string)
| ELocation (time_key : pytime) (lat lon : R) (loc_type : string)
            (timestamp : pytime).

(** What [create_direct_map] adds to the folium map, in the order of the
    [add_to] calls.  Each element keeps the data its popup and tooltip
    are formatted from; the HTML text itself is left out. *)
Inductive map_element :=
| NoDataMarker (at_ : point)
| StatusesInfoMarker (at_ : point) (statuses : list (pytime * string))
| StatusChangeMarker (at_ : point) (time_key : pytime) (status : string)
| PointMarker (at_ : point) (loc_type : string) (time_key : pytime)
              (status : string)
| SegmentStartMarker (i : nat) (at_ : point) (status : string)
| SegmentEndMarker (i : nat) (at_ : point) (status : string)
| SegmentPolyLine (i : nat) (points : list point) (status : string)
| RouteStartMarker (at_ : point)
| RouteEndMarker (at_ : point).

Record folium_map := mkmap {
  location : point;
  zoom_start : Z;
  title_statuses : option (list string);
  elements : list map_element
}.

(** Moscow, the default centre. *)
Definition default_center : point := (55.7558, 37.6173)%R.

(** [timestamp[:19]] for a string, the object itself otherwise. *)
Definition time_key_of (t : pytime) : pytime :=
  match t with
  | PStr s => PStr (slice19 s)
  | PDate _ => t
  end.

Definition event_time (e : event) : pytime :=
  match e with
  | EStatus k _ => k
  | ELocation k _ _ _ _ => k
  end.

Definition is_status (e : event) : bool :=
  match e with EStatus _ _ => true | ELocation _ _ _ _ _ => false end.

Definition is_location (e : event) : bool := negb (is_status e).

Definition event_of_location (x : location_event) : event :=
  ELocation (le_key x) (le_lat x) (le_lon x) (le_type x) (le_timestamp x).

Definition event_of_status (x : pytime * string) : event :=
  EStatus (fst x) (snd x).

Definition le_point (x : location_event) : point := (le_lat x, le_lon x).

(** The points of the location events of a timeline, in timeline
    order. *)
Fixpoint timeline_points (evs : list event) : list point :=
  match evs with
  | [] => []
  | EStatus _ _ :: r => timeline_points r
  | ELocation _ lat lon _ _ :: r => (lat, lon) :: timeline_points r
  end.

Definition count_status (evs : list event) : nat :=
  List.length (filter is_status evs).

(** *** Normalisation (lines 228-267) *)

(** [status_events]: [(status_time, status)] per row, sorted by time. *)
Definition status_events (status_history : list status_row)
  : option (list (pytime * string)) :=
  sort time_lt fst
    (map (fun r => (time_key_of (st_time r), st_status r)) status_history).

(** [location_events]: [valid_locations] sorted by raw timestamp,
    converted, and sorted again by [time_key]. *)
Definition location_events (valid_locations : list location_row)
  : option (list location_event) :=
  sorted_rows <- sort time_lt loc_time valid_locations ;;
  sort time_lt le_key
    (map (fun r => mkle (time_key_of (loc_time r)) (loc_lat r) (loc_lon r)
                        (loc_type r) (loc_time r)) sorted_rows).

Section Merge.

(** [datetime.strptime(s, '%Y-%m-%d %H:%M:%S')]; [None] is its
    [ValueError]. *)
Variable strptime : string -> option datetime.

(** *** Temporal merge (lines 269-290) *)

Definition safe_sort_key (e : event) : pytime :=
  match event_time e with
  | PStr s =>
      match strptime (slice19 s) with
      | Some d => PDate d
      | None => PStr s
      end
  | PDate d => PDate d
  end.

Definition all_events (sts : list (pytime * string))
           (locs : list location_event) : list event :=
  map event_of_status sts ++ map event_of_location locs.

Definition merge (sts : list (pytime * string))
           (locs : list location_event) : option (list event) :=
  sort time_lt safe_sort_key (all_events sts locs).

(** [a] is not later than [b] by the safe key. *)
Definition chronological (a b : event) : Prop :=
  not_after time_lt safe_sort_key a b.

End Merge.

(** *** Nearest-match (lines 312-334) *)

Definition int_lt (a b : Z) : option bool := Some (a <? b)%Z.

(** The sort key of the lambda at lines 322-323, for a status time whose
    [str(time_key)[:19]] has length [n]. *)
Definition closeness (n : Z) (x : location_event) : Z :=
  if is_str (le_key x) then Z.abs (len_str19 (le_key x) - n) else 9999.

(** The location a status change is drawn at; [None] when there is no
    location at all ([if location_events:]). *)
Definition nearest_location (locs : list location_event) (time_key : pytime)
  : option location_event :=
  match locs with
  | [] => None
  | _ :: _ =>
      match sort int_lt (closeness (len_str19 time_key)) locs with
      | Some (closest_location :: _) => Some closest_location
      | _ => None
      end
  end.

(** *** Segmentation loop (lines 292-405) *)

Record loop_state := mkloop {
  path_segments : list (list point);
  current_segment : list point;
  current_status : string;
  drawn : list map_element
}.

Definition unknown_status : string := "Неизвестно".

Definition loop_init : loop_state := mkloop [] [] unknown_status [].

Definition is_empty {A : Type} (l : list A) : bool :=
  match l with [] => true | _ :: _ => false end.

Definition close_segment (st : loop_state) : loop_state :=
  if is_empty (current_segment st) then st
  else mkloop (path_segments st ++ [current_segment st]) []
              (current_status st) (drawn st).

Definition loop_body (locs : list location_event) (st : loop_state)
           (e : event) : loop_state :=
  match e with
  | EStatus time_key status =>
      let st1 := close_segment st in
      let marker :=
        match nearest_location locs time_key with
        | Some c => [StatusChangeMarker (le_point c) time_key status]
        | None => []
        end in
      mkloop (path_segments st1) (current_segment st1) status
             (drawn st1 ++ marker)
  | ELocation time_key lat lon loc_type _ =>
      mkloop (path_segments st) (current_segment st ++ [(lat, lon)])
             (current_status st)
             (drawn st ++ [PointMarker (lat, lon) loc_type time_key
                                       (current_status st)])
  end.

(** The loop over [all_events] followed by the flush of the last
    segment (lines 403-405). *)
Definition segmentation (locs : list location_event) (evs : list event)
  : loop_state :=
  close_segment (fold_left (loop_body locs) evs loop_init).

(** *** Rendering of the segments (lines 407-475) *)

Definition first_point (seg : list point) : point := hd (0, 0)%R seg.
Definition last_point (seg : list point) : point := last seg (0, 0)%R.

(** One pass of the loop over [enumerate(path_segments)], for the
    segment of index [i]; [status] is the value of [current_status]
    when the loop runs.  The colour and the [time_str] looked up for the
    popups are left out. *)
Definition draw_segment (status : string) (i : nat) (seg : list point)
  : list map_element :=
  if (1 <? List.length seg)%nat then
    [SegmentStartMarker i (first_point seg) status;
     SegmentEndMarker i (last_point seg) status;
     SegmentPolyLine i seg status]
  else [].

Fixpoint draw_segments (status : string) (i : nat)
         (segs : list (list point)) : list map_element :=
  match segs with
  | [] => []
  | seg :: r => draw_segment status i seg ++ draw_segments status (S i) r
  end.

(** Route start and end (lines 479-501). *)
Definition route_ends (locs : list location_event) : list map_element :=
  match locs with
  | [] => []
  | first_event :: _ =>
      [RouteStartMarker (le_point first_event);
       RouteEndMarker (le_point (last locs first_event))]
  end.

(** *** The pipeline up to the segments *)

(** Lines 228-290: [location_events] and the sorted [all_events]. *)
Definition timeline (strptime : string -> option datetime)
           (valid_locations : list location_row)
           (status_history : list status_row)
  : option (list location_event * list event) :=
  sts <- status_events status_history ;;
  locs <- location_events valid_locations ;;
  evs <- merge strptime sts locs ;;
  Some (locs, evs).

(** [path_segments] when the loop has run and the last segment has been
    flushed (line 405). *)
Definition route_segments (strptime : string -> option datetime)
           (valid_locations : list location_row)
           (status_history : list status_row)
  : option (list (list point)) :=
  t <- timeline strptime valid_locations status_history ;;
  Some (path_segments (segmentation (fst t) (snd t))).

(** *** The whole function *)

Definition sum (l : list R) : R := fold_left Rplus l 0%R.

Definition map_filename (safe_user_name date : string) : string :=
  "map_" ++ safe_user_name ++ "_" ++ date ++ ".html".

Section Create.

Variable strptime : string -> option datetime.
(** [safe_user_name], and [date] or today's date when it is [None]. *)
Variables (safe_user_name date : string).

Definition create_direct_map (valid_locations : list location_row)
           (status_history : list status_row)
  : option (string * folium_map) :=
  if is_empty valid_locations && is_empty status_history then
    Some (map_filename safe_user_name date,
          mkmap default_center 10 None [NoDataMarker default_center])
  else
    let center :=
      if is_empty valid_locations then default_center
      else ((sum (map loc_lat valid_locations)
             / INR (List.length valid_locations))%R,
            (sum (map loc_lon valid_locations)
             / INR (List.length valid_locations))%R) in
    let title := Some (map st_status status_history) in
    if is_empty valid_locations then
      Some (map_filename safe_user_name date,
            mkmap center 14 title
              [StatusesInfoMarker center
                 (map (fun s => (st_time s, st_status s)) status_history)])
    else
      t <- timeline strptime valid_locations status_history ;;
      let st := segmentation (fst t) (snd t) in
      Some (map_filename safe_user_name date,
            mkmap center 14 title
              (drawn st
               ++ draw_segments (current_status st) 0 (path_segments st)
               ++ route_ends (fst t))).

End Create.

(** *** What a map shows *)

(** Position and status annotation of the markers drawn for the
    location events, in drawing order. *)
Fixpoint point_labels (els : list map_element) : list (point * string) :=
  match els with
  | [] => []
  | PointMarker p _ _ status :: r => (p, status) :: point_labels r
  | _ :: r => point_labels r
  end.

(** Points and status annotation of the polylines. *)
Fixpoint polyline_labels (els : list map_element)
  : list (list point * string) :=
  match els with
  | [] => []
  | SegmentPolyLine _ pts status :: r => (pts, status) :: polyline_labels r
  | _ :: r => polyline_labels r
  end.

(** Position and new status of the status-change markers. *)
Fixpoint status_change_labels (els : list map_element)
  : list (point * string) :=
  match els with
  | [] => []
  | StatusChangeMarker p _ status :: r => (p, status) :: status_change_labels r
  | _ :: r => status_change_labels r
  end.

End DirectMap.

(** ** Geo-math: the distance and speed computations of [bot.py]
    (lines 336-351, 383) and [utils.py] (lines 268-283, 293-296) *)

Module GeoMath.

Local Open Scope R_scope.

(** [math.radians] *)
Definition radians (x : R) : R := x * (PI / 180).

(** [math.atan2(y, x)] *)
Definition atan2 (y x : R) : R :=
  if Rlt_dec 0 x then atan (y / x)
  else if Rlt_dec x 0 then
         if Rle_dec 0 y then atan (y / x) + PI else atan (y / x) - PI
  else if Rlt_dec 0 y then PI / 2
  else if Rlt_dec y 0 then - (PI / 2)
  else 0.

(** [R = 6371000], the Earth radius in metres. *)
Definition earth_radius : R := 6371000.

(** Both files compute the distance with the same lines; the arguments
    are the latitudes and longitudes in degrees.  This is the value of
    those lines in exact arithmetic; [computed_distance] below is the
    computation with its error path. *)
Definition haversine_distance (prev_lat prev_lon lat lon : R) : R :=
  let lat1 := radians prev_lat in
  let lon1 := radians prev_lon in
  let lat2 := radians lat in
  let lon2 := radians lon in
  let dlon := lon2 - lon1 in
  let dlat := lat2 - lat1 in
  let a := sin (dlat / 2) ^ 2 + cos lat1 * cos lat2 * sin (dlon / 2) ^ 2 in
  let c := 2 * atan2 (sqrt a) (sqrt (1 - a)) in
  earth_radius * c.

(** [math.sqrt(x)] raises [ValueError] for a negative argument. *)
Definition math_sqrt (x : R) : option R :=
  if Rlt_dec x 0 then None else Some (sqrt x).

Section Float.

(** What the rounding of float arithmetic adds to the exact value of [a]
    (line 348 of [bot.py], line 280 of [utils.py]) for the four
    coordinates; the rest of the computation is taken as exact.  The
    rounding is a parameter of all that follows: what is proved holds
    for every rounding. *)
Variable rounding : R -> R -> R -> R -> R.

(** The distance as the program computes it.  The two square roots of
    [c = 2 * atan2(sqrt(a), sqrt(1 - a))] raise when rounding has moved
    [a] out of the interval from 0 to 1, as it does for some pairs of
    nearly antipodal points. *)
Definition computed_distance (prev_lat prev_lon lat lon : R) : option R :=
  let lat1 := radians prev_lat in
  let lon1 := radians prev_lon in
  let lat2 := radians lat in
  let lon2 := radians lon in
  let dlon := lon2 - lon1 in
  let dlat := lat2 - lat1 in
  let a := sin (dlat / 2) ^ 2 + cos lat1 * cos lat2 * sin (dlon / 2) ^ 2
           + rounding prev_lat prev_lon lat lon in
  root <- math_sqrt a ;;
  coroot <- math_sqrt (1 - a) ;;
  let c := 2 * atan2 root coroot in
  Some (earth_radius * c).

End Float.

(** Arithmetic without rounding. *)
Definition no_rounding (prev_lat prev_lon lat lon : R) : R := 0.

(** [x / y] on floats raises [ZeroDivisionError] for a zero divisor. *)
Definition py_div (x y : R) : option R :=
  if Req_dec_T y 0 then None else Some (x / y).

(** [(distance / seconds) * 3.6 if seconds > 0 else 0] *)
Definition speed_kmh (distance seconds : R) : option R :=
  if Rlt_dec 0 seconds then
    q <- py_div distance seconds ;; Some (q * 3.6)
  else Some 0.

End GeoMath.

Import GeoMath.

(** ** [bot.py]: the movement classifier of [handle_location]
    (lines 313-401) *)

Module Classifier.

Local Open Scope string_scope.
Local Open Scope R_scope.

(** The string kept under ['timestamp'], as far as the classifier looks
    at it: its truth value and what [datetime.fromisoformat] makes of
    it.  [isoformat] of a time [t] is [IsoTime t]. *)
Inductive iso_string :=
| IsoEmpty
| IsoTime (t : R)
| IsoInvalid.

Definition isoformat (t : R) : iso_string := IsoTime t.

(** [None] is the [ValueError] of an invalid string. *)
Definition fromisoformat (s : iso_string) : option R :=
  match s with
  | IsoTime t => Some t
  | IsoEmpty | IsoInvalid => None
  end.

(** [chat_data[user_id]['last_location']] *)
Record last_location := mklast {
  latitude : R;
  longitude : R;
  timestamp : iso_string;
  last_movement_status : string;
  last_speed : R
}.

(** [chat_data[user_id]]; the optional fields are the keys that the
    initialisation does not create. *)
Record user_data := mkuser {
  movement_status : string;
  stationary_duration : R;
  last_loc : option last_location;
  admin_notified : option bool;
  speed : option R
}.

(** Lines 314-317. *)
Definition init_user_data : user_data :=
  mkuser "unknown" 0 None None None.

(** Truth value of a float and of a string. *)
Definition truthy_float (x : R) : bool :=
  if Req_dec_T x 0 then false else true.

Definition truthy_str (s : iso_string) : bool :=
  match s with IsoEmpty => false | _ => true end.

(** [chat_data[user_id].get('admin_notified', False)] *)
Definition get_admin_notified (ud : user_data) : bool :=
  match admin_notified ud with Some b => b | None => false end.

(** The guard of line 334. *)
Definition consulted (prev : last_location) : bool :=
  truthy_float (latitude prev) && truthy_float (longitude prev)
  && truthy_str (timestamp prev).

(** What one call leaves behind: the subject's data, the
    [location_type] of the sample and whether an alert reached the
    administrator. *)
Record outcome := mkout {
  data : user_data;
  location_type : string;
  alert_sent : bool
}.

Section Classify.

(** The rounding of the distance computation. *)
Variable rounding : R -> R -> R -> R -> R.
(** The new sample and the clock. *)
Variables (lat lon current_time : R).
(** Whether [context.bot.send_message] returns ([true]) or raises
    ([false]; the exception is caught at line 378). *)
Variable send_ok : bool.

(** Lines 336-392, for a predecessor that passed the guard. *)
Definition compare_with (ud : user_data) (prev : last_location)
  : option outcome :=
  distance <-
    computed_distance rounding (latitude prev) (longitude prev) lat lon ;;
  prev_time <- fromisoformat (timestamp prev) ;;
  let time_diff_seconds := current_time - prev_time in
  if Rlt_dec distance 10 then
    let duration := stationary_duration ud + time_diff_seconds in
    if Rlt_dec 300 duration then
      if (if Rlt_dec 1800 duration then true else false)
         && negb (get_admin_notified ud)
      then
        if send_ok then
          Some (mkout (mkuser "stationary" duration (last_loc ud)
                              (Some true) (speed ud))
                      "stationary" true)
        else
          Some (mkout (mkuser "stationary" duration (last_loc ud)
                              (admin_notified ud) (speed ud))
                      "stationary" false)
      else
        Some (mkout (mkuser "stationary" duration (last_loc ud)
                            (admin_notified ud) (speed ud))
                    "stationary" false)
    else
      Some (mkout (mkuser (movement_status ud) duration (last_loc ud)
                          (admin_notified ud) (speed ud))
                  "intermediate" false)
  else
    v <- speed_kmh distance time_diff_seconds ;;
    Some (mkout (mkuser "moving" 0 (last_loc ud) (Some false) (Some v))
                "moving" false).

(** Lines 325-392: the default classification, the guard and the
    comparison. *)
Definition classify (ud : user_data) : option outcome :=
  match last_loc ud with
  | Some prev =>
      if consulted prev then compare_with ud prev
      else Some (mkout ud "intermediate" false)
  | None => Some (mkout ud "intermediate" false)
  end.

(** Lines 394-401: the sample becomes the predecessor. *)
Definition remember (o : outcome) : outcome :=
  let ud := data o in
  mkout (mkuser (movement_status ud) (stationary_duration ud)
           (Some (mklast lat lon (isoformat current_time)
                         (movement_status ud)
                         (match speed ud with Some v => v | None => 0 end)))
           (admin_notified ud) (speed ud))
        (location_type o) (alert_sent o).

(** Lines 313-401; [None] for the subject's data stands for a
    [user_id] that is not a key of [chat_data] yet. *)
Definition handle_location (entry : option user_data) : option outcome :=
  let ud := match entry with Some ud => ud | None => init_user_data end in
  o <- classify ud ;; Some (remember o).

End Classify.

End Classifier.

(** ** [utils.py]: [create_map_for_user], the speed and movement status of
    a rendered point (lines 261-329) *)

Module RouteRender.

Local Open Scope string_scope.
Local Open Scope R_scope.

(** Lines 261-305: the speed of a point relative to the previously
    rendered one, at [(last_lat, last_lon)].  [seconds] is
    [(timestamp - last_time).total_seconds()]; it is [None] when one of
    the two is no datetime object or when the subtraction raises, and
    lines 297-305 then give the speed 0.  The distance is computed
    outside that [try]: its [ValueError] ends the processing of the
    point (it is caught at line 427), which [None] stands for. *)
Definition point_speed (rounding : R -> R -> R -> R -> R)
           (last : option (R * R)) (seconds : option R) (lat lon : R)
  : option R :=
  match last with
  | Some (last_lat, last_lon) =>
      distance <- computed_distance rounding last_lat last_lon lat lon ;;
      match seconds with
      | Some time_diff => speed_kmh distance time_diff
      | None => Some 0
      end
  | None => Some 0
  end.

(** Lines 310-329. *)
Definition movement_status_of (loc_type : string) (speed : R) : string :=
  if String.eqb loc_type "start" then "start"
  else if String.eqb loc_type "end" then "end"
  else if String.eqb loc_type "stationary" then "stationary"
  else if String.eqb loc_type "moving" then
         if Rlt_dec 50 speed then "fast_moving" else "moving"
  else "unknown".

End RouteRender.

(** ** Concrete inputs *)

Module Scenario.

Import DirectMap.
Local Open Scope string_scope.

Definition on_day (hms : string) : pytime := PStr ("2025-05-07 " ++ hms).

Definition status_row_at (i : Z) (status hms : string) : status_row :=
  mkstatus i 502488869 status (on_day hms).

Definition location_row_at (lats lons : nat -> R) (i : nat) (hms : string)
  : location_row :=
  mkloc (lats i) (lons i) (on_day hms)
        "session_502488869_1746604800" "intermediate".

Definition rows_at (lats lons : nat -> R) (times : list string)
  : list location_row :=
  map (fun it => location_row_at lats lons (fst it) (snd it))
      (combine (seq 0 (List.length times)) times).

Definition points_at (lats lons : nat -> R) (n : nat) : list point :=
  map (fun i => (lats i, lons i)) (seq 0 n).

(** Points some 100 m apart along a meridian through Moscow. *)
Definition north (i : nat) : R := (55.75 + INR i / 1000)%R.
Definition east (i : nat) : R := 37.61%R.

(** Scenario D of the specification: [office] at 08:00, [home] at 17:00
    and ten locations from 08:05 to 16:55. *)
Definition d_statuses : list status_row :=
  [status_row_at 1 "office" "08:00:00"; status_row_at 2 "home" "17:00:00"].

Definition d_times : list string :=
  ["08:05:00"; "09:00:00"; "10:00:00"; "11:00:00"; "12:00:00";
   "13:00:00"; "14:00:00"; "15:00:00"; "16:00:00"; "16:55:00"].

Definition d_locations (lats lons : nat -> R) : list location_row :=
  rows_at lats lons d_times.

(** A day with two segments: [office] at 08:00, two locations, [home] at
    12:00, two more locations. *)
Definition two_statuses : list status_row :=
  [status_row_at 1 "office" "08:00:00"; status_row_at 2 "home" "12:00:00"].

Definition two_locations : list location_row :=
  rows_at north east ["09:00:00"; "10:00:00"; "13:00:00"; "14:00:00"].

(** A location whose timestamp lacks the seconds, next to a well-formed
    status. *)
Definition short_locations : list location_row :=
  rows_at north east ["08:05"].

Definition short_statuses : list status_row :=
  [status_row_at 1 "office" "08:00:00"].

(** The location events of a list of rows whose timestamps are already
    in order (lines 245-267). *)
Definition events_of (rows : list location_row) : list location_event :=
  map (fun r => mkle (time_key_of (loc_time r)) (loc_lat r) (loc_lon r)
                     (loc_type r) (loc_time r)) rows.

Definition d_location_events (lats lons : nat -> R) : list location_event :=
  events_of (d_locations lats lons).

Definition two_status_events : list (pytime * string) :=
  [(on_day "08:00:00", "office"); (on_day "12:00:00", "home")].

Definition two_location_events : list location_event :=
  events_of two_locations.

Definition two_timeline : list event :=
  match two_location_events with
  | [a; b; c; d] =>
      [EStatus (on_day "08:00:00") "office";
       event_of_location a; event_of_location b;
       EStatus (on_day "12:00:00") "home";
       event_of_location c; event_of_location d]
  | _ => []
  end.

(** A day on which every status change bears the stamp of a location:
    [office] and a location at 09:00:00, [home] and a location at
    10:00:00. *)
Definition tie_status_events : list (pytime * string) :=
  [(on_day "09:00:00", "office"); (on_day "10:00:00", "home")].

Definition tie_location_events : list location_event :=
  events_of (rows_at north east ["09:00:00"; "10:00:00"]).

Definition tie_timeline : list event :=
  match tie_location_events with
  | [a; b] =>
      [EStatus (on_day "09:00:00") "office"; event_of_location a;
       EStatus (on_day "10:00:00") "home"; event_of_location b]
  | _ => []
  end.

End Scenario.

(** ** [fixed_map_generator.py]: rows as the database returns them *)

Module Fetch.

Local Open Scope R_scope.

(** A column value of a row returned by [sqlite3]. *)
Inductive sql_value :=
| SqlNull
| SqlInteger (n : Z)
| SqlReal (x : R)
| SqlText (s : string)
| SqlBlob (b : string).

(** A row of the query of [get_locations_from_db]:
    [latitude, longitude, timestamp, session_id, location_type]. *)
Record fetched_row := mkfetched {
  f_latitude : sql_value;
  f_longitude : sql_value;
  f_timestamp : sql_value;
  f_session : sql_value;
  f_type : sql_value
}.

(** An entry of [valid_locations] as [get_locations_from_db] builds it:
    the coordinates are floats, the other columns are untouched. *)
Record valid_row := mkvalid {
  v_lat : R;
  v_lon : R;
  v_time : sql_value;
  v_session : sql_value;
  v_type : sql_value
}.

Section Float.

(** [float] of a string and of a bytes object; [None] is the
    [ValueError] of text that is not a number. *)
Variable float_of_text : string -> option R.
Variable float_of_bytes : string -> option R.

(** [float(v)]; [None] is the [TypeError] for [None] or the [ValueError]
    of the text, both caught at line 113. *)
Definition py_float (v : sql_value) : option R :=
  match v with
  | SqlNull => None
  | SqlInteger n => Some (IZR n)
  | SqlReal x => Some x
  | SqlText s => float_of_text s
  | SqlBlob b => float_of_bytes b
  end.

(** [-90 <= lat <= 90 and -180 <= lon <= 180] *)
Definition in_range (lat lon : R) : bool :=
  (if Rle_dec (-90) lat then true else false)
  && (if Rle_dec lat 90 then true else false)
  && (if Rle_dec (-180) lon then true else false)
  && (if Rle_dec lon 180 then true else false).

(** The body of the loop of lines 99-114: the row to append, if any. *)
Definition check_row (loc : fetched_row) : option valid_row :=
  match py_float (f_latitude loc), py_float (f_longitude loc) with
  | Some lat, Some lon =>
      if in_range lat lon
      then Some (mkvalid lat lon (f_timestamp loc) (f_session loc) (f_type loc))
      else None
  | _, _ => None
  end.

(** Lines 97-117, applied to the rows fetched. *)
Fixpoint get_locations_from_db (all_locations : list fetched_row)
  : list valid_row :=
  match all_locations with
  | [] => []
  | loc :: rest =>
      match check_row loc with
      | Some v => v :: get_locations_from_db rest
      | None => get_locations_from_db rest
      end
  end.

End Float.

End Fetch.

(** ** Further notions on timelines *)

Module Timeline.

Import DirectMap.

Definition dt_eqb (a b : datetime) : bool :=
  match lex_compare (fields a) (fields b) with
  | Eq => true
  | _ => false
  end.

(** [a == b] on timestamps; a string never equals a datetime. *)
Definition time_eqb (a b : pytime) : bool :=
  match a, b with
  | PStr x, PStr y => String.eqb x y
  | PDate x, PDate y => dt_eqb x y
  | _, _ => false
  end.

(** The status in force after a prefix of the timeline: that of its last
    status event, [unknown_status] when it has none. *)
Definition last_status (pre : list event) : string :=
  fold_left (fun cur e => match e with
                          | EStatus _ status => status
                          | ELocation _ _ _ _ _ => cur
                          end) pre unknown_status.

(** A timestamp that is a string which [strptime] accepts after the cut
    to 19 characters. *)
Definition parses (strptime : string -> option datetime) (t : pytime) : bool :=
  match t with
  | PStr s => match strptime (slice19 s) with Some _ => true | None => false end
  | PDate _ => false
  end.

(** A time key that is a string, and such that the safe key of an
    event carrying it is a datetime. *)
Definition good_key (strptime : string -> option datetime) (k : pytime)
  : Prop :=
  is_str k = true
  /\ forall e, event_time e = k -> is_str (safe_sort_key strptime e) = false.

Definition valid_coordinates (r : location_row) : Prop :=
  (-90 <= loc_lat r <= 90 /\ -180 <= loc_lon r <= 180)%R.

End Timeline.

(** ** [bot.py]: successive location updates of one subject *)

Module Updates.

Import Classifier.
Local Open Scope R_scope.

(** One call of [handle_location]: the position received, the clock, and
    whether a message to the administrator would get through. *)
Record sample := mksample {
  s_lat : R;
  s_lon : R;
  s_time : R;
  s_send_ok : bool
}.

Section Run.

(** The rounding of the distance computation. *)
Variable rounding : R -> R -> R -> R -> R.

Definition step (entry : option user_data) (s : sample) : option outcome :=
  handle_location rounding (s_lat s) (s_lon s) (s_time s) (s_send_ok s) entry.

(** The calls for a list of samples, each on the data the previous call
    left in [chat_data]; the first exception ends the run. *)
Fixpoint run (entry : option user_data) (samples : list sample)
  : option (option user_data * list outcome) :=
  match samples with
  | [] => Some (entry, [])
  | s :: rest =>
      o <- step entry s ;;
      r <- run (Some (data o)) rest ;;
      Some (fst r, o :: snd r)
  end.

(** Samples off the equator and the prime meridian, each at a computed
    distance of less than 10 m from the one before; [(lat0, lon0)] is
    the position before the first. *)
Fixpoint still (lat0 lon0 : R) (samples : list sample) : Prop :=
  match samples with
  | [] => True
  | s :: rest =>
      lat0 <> 0 /\ lon0 <> 0
      /\ (exists distance,
            computed_distance rounding lat0 lon0 (s_lat s) (s_lon s)
            = Some distance
            /\ distance < 10)
      /\ still (s_lat s) (s_lon s) rest
  end.

(** The distance computations of a run return: each sample whose
    predecessor passes the guard of line 334 by its coordinates has a
    computed distance from it; [(lat0, lon0)] is the position before the
    first. *)
Fixpoint distances_return (lat0 lon0 : R) (samples : list sample) : Prop :=
  match samples with
  | [] => True
  | s :: rest =>
      (lat0 <> 0 -> lon0 <> 0 ->
       computed_distance rounding lat0 lon0 (s_lat s) (s_lon s) <> None)
      /\ distances_return (s_lat s) (s_lon s) rest
  end.

End Run.

(** The stored predecessor, if any, carries a timestamp written by
    [isoformat]. *)
Definition well_stamped (entry : option user_data) : Prop :=
  match entry with
  | Some ud =>
      match last_loc ud with
      | Some prev => exists t, timestamp prev = IsoTime t
      | None => True
      end
  | None => True
  end.

(** The clock of the last sample, [t0] when there is none. *)
Definition last_time (t0 : R) (samples : list sample) : R :=
  last (map s_time samples) t0.

Definition alerts (outs : list outcome) : nat :=
  List.length (filter alert_sent outs).

End Updates.

(** ** [bot.py]: location sessions in [handle_location] (lines 403-427)
    and [handle_status_message] (lines 148-292) *)

Module Tracking.

Import Classifier.
Local Open Scope string_scope.

(** [STATUS_OPTIONS] of [config.py], in the order of the source. *)
Definition STATUS_OPTIONS : list (string * string) :=
  [("office", "🏢 В офисе");
   ("sick", "🏥 На больничном");
   ("vacation", "🏖 В отпуске");
   ("to_night", "🌃 В ночь");
   ("from_night", "🌙 С ночи");
   ("home", "🏠 Домой")].

(** A dict with string keys, as an association list without repeated
    keys: [d.get(k)] and [d[k] = v]. *)
Fixpoint dict_get {V : Type} (d : list (string * V)) (k : string) : option V :=
  match d with
  | [] => None
  | (k', v) :: r => if String.eqb k' k then Some v else dict_get r k
  end.

Fixpoint dict_set {V : Type} (d : list (string * V)) (k : string) (v : V)
  : list (string * V) :=
  match d with
  | [] => [(k, v)]
  | (k', v') :: r =>
      if String.eqb k' k then (k, v) :: r else (k', v') :: dict_set r k v
  end.

(** [{value: key for key, value in STATUS_OPTIONS.items()}] *)
Definition status_map : list (string * string) :=
  fold_left (fun d kv => dict_set d (snd kv) (fst kv)) STATUS_OPTIONS [].

(** What [chat_data] holds for one user: [chat_data[user_id]],
    [chat_data["location_tracking_<id>"]] and
    [chat_data["location_session_<id>"]].  The outer [option] is the
    presence of the key; a session key may hold [None]. *)
Record chat_entries := mkchat {
  user_entry : option user_data;
  location_tracking : option bool;
  location_session : option (option string)
}.

(** [chat_data.get("location_tracking_<id>", False)] and the truth value
    of [chat_data.get("location_tracking_<id>")]. *)
Definition tracking (c : chat_entries) : bool :=
  match location_tracking c with Some b => b | None => false end.

(** [chat_data.get("location_session_<id>")] *)
Definition session (c : chat_entries) : option string :=
  match location_session c with Some v => v | None => None end.

(** Truth value of a session id: a non-empty string. *)
Definition truthy_session (o : option string) : bool :=
  match o with
  | Some sid => negb (String.eqb sid "")
  | None => false
  end.

(** The calls to the database layer and to the administrator that the
    two handlers make. *)
Inductive effect :=
| SaveLocation (session_id : option string) (location_type : string)
               (lat lon : R)
| SaveStatus (status_key : string)
| MarkSessionEnded (session_id : string) (coordinates : option (R * R))
| UpdateMorningCheck
| AddNightShift
| NotifyAdmin.

Section HandleLocation.

(** The rounding of the distance computation. *)
Variable rounding : R -> R -> R -> R -> R.
Variables (lat lon current_time : R) (send_ok : bool).
(** What [save_location] returns when it is called without a session id
    ([database.py], lines 171-185): the [session_id] column of the
    user's latest row of today that is not an [end], which is [None]
    when that column is [NULL], and a fresh id when there is no such
    row. *)
Variable saved_session : option string.

(** [handle_location], lines 313-427: the classifier, then the saving of
    the point.  The database is taken to answer. *)
Definition handle_location (c : chat_entries)
  : option (chat_entries * outcome * list effect) :=
  o <- Classifier.handle_location rounding lat lon current_time send_ok
         (user_entry c) ;;
  let start_new_session := negb (tracking c) in
  if start_new_session then
    Some (mkchat (Some (data o)) (Some true) (Some saved_session), o,
          [SaveLocation None "start" lat lon; UpdateMorningCheck])
  else
    Some (mkchat (Some (data o)) (location_tracking c) (location_session c), o,
          [SaveLocation (session c) (location_type o) lat lon;
           UpdateMorningCheck]).

End HandleLocation.

(** The branch of [handle_status_message] that answers. *)
Inductive branch :=
| NotAStatus
| Home
| NightShiftStart
| NightShiftEnd
| Confirmed.

Section HandleStatus.

(** [update.message.location], if the message carries one. *)
Variable message_location : option (R * R).
(** Whether [mark_session_ended] returns for a session ([true]) or raises
    ([false], the database cannot be opened). *)
Variable mark_ok : string -> bool.
(** The answer of [get_active_location_sessions]; [None] if it raises. *)
Variable active_sessions : option (list string).
(** The answer of [is_user_in_night_shift]. *)
Variable in_night_shift : bool.

(** The loop of lines 226-229: the calls made, up to the first one that
    raises. *)
Fixpoint end_all (sessions : list string) : list effect :=
  match sessions with
  | [] => []
  | sid :: r =>
      MarkSessionEnded sid None :: (if mark_ok sid then end_all r else [])
  end.

Definition handle_status_message (message_text : string) (c : chat_entries)
  : chat_entries * branch * list effect :=
  if String.eqb message_text "📝 Отпроситься" then (c, NotAStatus, [])
  else
    match dict_get status_map message_text with
    | None => (c, NotAStatus, [])
    | Some status_key =>
        if String.eqb status_key "home" then
          let closing :=
            if tracking c && truthy_session (session c) then
              match session c with
              | Some sid =>
                  (if mark_ok sid
                   then mkchat (user_entry c) (Some false) (Some None)
                   else c,
                   [MarkSessionEnded sid message_location])
              | None => (c, [])
              end
            else (c, []) in
          (fst closing, Home,
           SaveStatus status_key :: UpdateMorningCheck :: snd closing
           ++ match active_sessions with
              | Some sessions => end_all sessions
              | None => []
              end
           ++ [NotifyAdmin])
        else if String.eqb status_key "night_shift_start" then
          (c, NightShiftStart,
           [SaveStatus status_key; UpdateMorningCheck; AddNightShift])
        else if String.eqb status_key "night_shift_end" then
          (c, NightShiftEnd,
           SaveStatus status_key :: UpdateMorningCheck
           :: (if in_night_shift then [UpdateMorningCheck] else []))
        else (c, Confirmed, [SaveStatus status_key; UpdateMorningCheck])
    end.

End HandleStatus.

End Tracking.

(** ** Splitting and decimal numbers *)

Module Text.

(** [s.split(sep)] for a separator of one character: the pieces between
    the separators, [[""]] for the empty string. *)
Fixpoint split (sep : ascii) (s : string) : list string :=
  match s with
  | EmptyString => [EmptyString]
  | String c r =>
      if Ascii.eqb c sep then EmptyString :: split sep r
      else match split sep r with
           | piece :: pieces => String c piece :: pieces
           | [] => [String c EmptyString]
           end
  end.

(** [sep.join(pieces)] *)
Fixpoint join (sep : ascii) (pieces : list string) : string :=
  match pieces with
  | [] => EmptyString
  | [piece] => piece
  | piece :: rest => (piece ++ String sep (join sep rest))%string
  end.

(** [s.isdigit()]: at least one character, all of them decimal digits. *)
Definition isdigit (s : string) : bool :=
  match s with
  | EmptyString => false
  | String _ _ =>
      match DecimalString.NilEmpty.uint_of_string s with
      | Some _ => true
      | None => false
      end
  end.

(** [int(s)] for a string of decimal digits; [None] is the [ValueError]
    of anything else this function is given. *)
Definition int_of_digits (s : string) : option N :=
  if isdigit s
  then option_map N.of_uint (DecimalString.NilEmpty.uint_of_string s)
  else None.



End Text.

(** ** [utils.py]: [is_admin] *)

Module Admin.

Section IsAdmin.

(** [ADMIN_ID] and [ADMIN_IDS] of [config.py], read from the
    environment. *)
Variable ADMIN_ID : Z.
Variable ADMIN_IDS : string.
(** [int(id.strip())]; [None] is its [ValueError]. *)
Variable int_of_entry : string -> option Z.

(** The list comprehension of line 69: the first entry that is no number
    ends it with the exception. *)
Fixpoint parse_all (entries : list string) : option (list Z) :=
  match entries with
  | [] => Some []
  | id :: rest =>
      n <- int_of_entry id ;;
      l <- parse_all rest ;;
      Some (n :: l)
  end.

Definition is_admin (user_id : Z) : bool :=
  if Z.eqb user_id ADMIN_ID then true
  else if negb (String.eqb ADMIN_IDS "") then
    match parse_all (Text.split "," ADMIN_IDS) with
    | Some admin_list => existsb (Z.eqb user_id) admin_list
    | None => false
    end
  else false.

End IsAdmin.

End Admin.

(** ** [user_management.py] and [bot.py]: the buttons that select a user *)

Module Callback.

Local Open Scope string_scope.



End Callback.

(** ** [models.py]: [get_timeoff_stats_for_user], the tally of lines
    497-519 *)

Module Stats.

Local Open Scope string_scope.

Record stats := mkstats {
  total : Z;
  approved : Z;
  rejected : Z;
  pending : Z
}.

(** One pass of the loop over the rows [(status, count)]. *)
Definition count_row (st : stats) (row : string * Z) : stats :=
  let (status, count) := row in
  let st1 :=
    if String.eqb status "approved"
    then mkstats (total st) count (rejected st) (pending st)
    else if String.eqb status "rejected"
    then mkstats (total st) (approved st) count (pending st)
    else if String.eqb status "pending"
    then mkstats (total st) (approved st) (rejected st) count
    else st in
  mkstats (total st1 + count) (approved st1) (rejected st1) (pending st1).

Definition tally (results : list (string * Z)) : stats :=
  fold_left count_row results (mkstats 0 0 0 0).

(** The count of a status among the rows, 0 when it has no row. *)
Definition count_of (status : string) (results : list (string * Z)) : Z :=
  match find (fun row => String.eqb (fst row) status) results with
  | Some row => snd row
  | None => 0%Z
  end.

Definition sum_counts (results : list (string * Z)) : Z :=
  fold_right Z.add 0%Z (map snd results).

End Stats.

(** ** [utils.py]: the rows of [generate_csv_report] (lines 573-683) *)

Module Report.

Import Tracking.
Local Open Scope string_scope.

(** The datetime of a report row: naive when parsed from the database,
    aware (an instant) when taken from [datetime.now(MOSCOW_TZ)]. *)
Inductive stamp :=
| Naive (d : datetime)
| Aware (instant : Z).

(** [a < b] on datetimes; a naive one against an aware one raises
    [TypeError]. *)
Definition stamp_lt (a b : stamp) : option bool :=
  match a, b with
  | Naive x, Naive y => Some (dt_ltb x y)
  | Aware x, Aware y => Some (x <? y)%Z
  | _, _ => None
  end.

(** What the column [event_type] is formatted from: a fixed name, or
    [Местоположение (...)] around the displayed location type. *)
Inductive event :=
| Named (name : string)
| Location (location_type_display : Fetch.sql_value).

(** What the column [value] is formatted from: a value taken as it is,
    or two floats written with six decimals. *)
Inductive cell :=
| Value (v : Fetch.sql_value)
| Coordinates (lat lon : R).

(** An entry of [report_data]; name and id of the user, the same in all
    rows, are left out. *)
Record row := mkrow {
  id : Z;
  event_type : event;
  value : cell;
  timestamp : stamp
}.

(** A row without its number. *)
Definition content (r : row) : event * cell * stamp :=
  (event_type r, value r, timestamp r).

Definition naive (r : row) : Prop := exists d, timestamp r = Naive d.

(** The literal of lines 573-582 updated with [STATUS_OPTIONS]. *)
Definition status_translations : list (string * string) :=
  fold_left (fun d kv => dict_set d (fst kv) (snd kv)) STATUS_OPTIONS
    [("office", "🏢 В офисе");
     ("sick", "🏥 На больничном");
     ("vacation", "🏖 В отпуске");
     ("to_night", "🌃 В ночь");
     ("from_night", "🌙 С ночи");
     ("home", "🏠 Домой");
     ("night_shift_start", "🌃 В ночь");
     ("night_shift_end", "🌙 С ночи")].

Definition location_type_translations : list (string * string) :=
  [("start", "Начало трансляции");
   ("intermediate", "Промежуточная точка");
   ("end", "Конец трансляции")].

(** [d.get(k, k)] for a string [k]. *)
Definition translate (d : list (string * string)) (k : string) : string :=
  match dict_get d k with Some v => v | None => k end.

(** [d.get(v, v)] for a column value: only a string can be a key of
    [d]. *)
Definition display (d : list (string * string)) (v : Fetch.sql_value)
  : Fetch.sql_value :=
  match v with
  | Fetch.SqlText k => Fetch.SqlText (translate d k)
  | _ => v
  end.

Section Rows.

(** [datetime.strptime] with ['%Y-%m-%d %H:%M:%S'] and with
    ['%Y-%m-%d %H:%M:%S.%f']. *)
Variable strptime : string -> option datetime.
Variable strptime_f : string -> option datetime.
(** [float] of a string; [None] is its [ValueError]. *)
Variable float_of_text : string -> option R.

(** A timestamp column turned into a datetime; [None] when neither
    format fits, and the row is skipped.  The two queries select by the
    text of the timestamp, so that it is a string; a datetime object is
    taken as it is. *)
Definition parse_timestamp (t : pytime) : option datetime :=
  match t with
  | PStr s =>
      match strptime s with
      | Some d => Some d
      | None => strptime_f s
      end
  | PDate d => Some d
  end.

(** Lines 637-640 and the format [.6f] of line 668: the float that is
    written for a coordinate.  A string goes through [float]; [None]
    and a bytes object are left as they are and make the format raise
    [TypeError].  [None] is one of the two exceptions, caught at line
    672, and the row is skipped. *)
Definition coordinate (v : Fetch.sql_value) : option R :=
  match v with
  | Fetch.SqlNull => None
  | Fetch.SqlInteger n => Some (IZR n)
  | Fetch.SqlReal x => Some x
  | Fetch.SqlText s => float_of_text s
  | Fetch.SqlBlob _ => None
  end.

Definition next_id (report_data : list row) : Z :=
  Z.of_nat (List.length report_data) + 1.

(** Lines 589-616, one status [(status, timestamp)]. *)
Definition add_status (report_data : list row)
           (entry : Fetch.sql_value * pytime) : list row :=
  match parse_timestamp (snd entry) with
  | Some d =>
      report_data
      ++ [mkrow (next_id report_data) (Named "Статус")
                (Value (display status_translations (fst entry)))
                (Naive d)]
  | None => report_data
  end.

(** A row of [get_today_locations_for_user]:
    [(latitude, longitude, timestamp, session_id, location_type)]. *)
Record location := mklocation {
  lat : Fetch.sql_value;
  lon : Fetch.sql_value;
  ts : pytime;
  session_id : Fetch.sql_value;
  loc_type : Fetch.sql_value
}.

(** Lines 619-675, one location. *)
Definition add_location (report_data : list row) (loc : location)
  : list row :=
  match coordinate (lat loc), coordinate (lon loc),
        parse_timestamp (ts loc) with
  | Some la, Some lo, Some d =>
      report_data
      ++ [mkrow (next_id report_data)
                (Location (display location_type_translations (loc_type loc)))
                (Coordinates la lo)
                (Naive d)]
  | _, _, _ => report_data
  end.

(** Lines 678-682: [item['id'] = i + 1] over [enumerate(report_data)]. *)
Fixpoint renumber (i : Z) (report_data : list row) : list row :=
  match report_data with
  | [] => []
  | item :: rest =>
      mkrow (i + 1) (event_type item) (value item) (timestamp item)
      :: renumber (i + 1) rest
  end.

(** Lines 584-682, from the [report_data] that the time-off part has
    left. *)
Definition report_rows (report_data : list row)
           (status_history : list (Fetch.sql_value * pytime))
           (locations : list location) : option (list row) :=
  let with_statuses := fold_left add_status status_history report_data in
  let with_locations := fold_left add_location locations with_statuses in
  sorted <- sort stamp_lt timestamp with_locations ;;
  Some (renumber 0 sorted).

(** The content of the row that a status or a location should give, an
    empty list when it should give none. *)
Definition status_content (entry : Fetch.sql_value * pytime)
  : list (event * cell * stamp) :=
  match parse_timestamp (snd entry) with
  | Some d =>
      [(Named "Статус", Value (display status_translations (fst entry)),
        Naive d)]
  | None => []
  end.

Definition location_content (loc : location) : list (event * cell * stamp) :=
  match coordinate (lat loc), coordinate (lon loc),
        parse_timestamp (ts loc) with
  | Some la, Some lo, Some d =>
      [(Location (display location_type_translations (loc_type loc)),
        Coordinates la lo, Naive d)]
  | _, _, _ => []
  end.

End Rows.

End Report.

(** ** [database.py]: ending a location session *)

Module Database.

Local Open Scope string_scope.

(** A row of the table [location_history]; every column but the primary
    key may hold [NULL]. *)
Record location_row := mkrow {
  id : Z;
  user_id : option Z;
  latitude : Fetch.sql_value;
  longitude : Fetch.sql_value;
  timestamp : option string;
  session_id : option string;
  location_type : option string
}.

(** Truth value of an optional float argument: [None] and [0.0] are
    false. *)
Definition truthy (x : option R) : bool :=
  match x with
  | Some v => if Req_dec_T v 0 then false else true
  | None => false
  end.

(** SQL comparisons: a comparison with [NULL] selects no row. *)
Definition sql_eq_int (column : option Z) (value : Z) : bool :=
  match column with
  | Some v => Z.eqb v value
  | None => false
  end.

Definition sql_eq_text (column : option string) (value : string) : bool :=
  match column with
  | Some v => String.eqb v value
  | None => false
  end.

Definition sql_ne_text (column : option string) (value : string) : bool :=
  match column with
  | Some v => negb (String.eqb v value)
  | None => false
  end.

(** [column LIKE 'value%'] for a value without letters and wildcards, as
    a date is. *)
Definition sql_starts_with (column : option string) (value : string) : bool :=
  match column with
  | Some v => String.prefix value v
  | None => false
  end.

(** [WHERE user_id = ? AND session_id = ?] *)
Definition of_session (user : Z) (session : string) (r : location_row) : bool :=
  sql_eq_int (user_id r) user && sql_eq_text (session_id r) session.

(** [UPDATE location_history SET location_type = 'end' WHERE id = ...] *)
Definition set_end (target : Z) (r : location_row) : location_row :=
  if Z.eqb (id r) target
  then mkrow (id r) (user_id r) (latitude r) (longitude r) (timestamp r)
             (session_id r) (Some "end")
  else r.

Section MarkSessionEnded.

(** The id and the [CURRENT_TIMESTAMP] that an inserted row gets. *)
Variables (new_id : Z) (now : string).
(** The row that [ORDER BY timestamp DESC LIMIT 1] selects among the
    rows it is given; SQLite does not say which one of several rows with
    the greatest timestamp. *)
Variable latest : list location_row -> option location_row.

(** [mark_session_ended(session_id, user_id, latitude, longitude)] as a
    function of the table; the call itself always returns [True]. *)
Definition mark_session_ended (session : string) (user : Z)
           (lat lon : option R) (table : list location_row)
  : list location_row :=
  match lat, lon with
  | Some la, Some lo =>
      if truthy lat && truthy lon
      then table ++ [mkrow new_id (Some user) (Fetch.SqlReal la)
                           (Fetch.SqlReal lo) (Some now) (Some session)
                           (Some "end")]
      else
        match filter (of_session user session) table with
        | [] => table
        | rows =>
            match latest rows with
            | Some r => map (set_end (id r)) table
            | None => table
            end
        end
  | _, _ =>
      match filter (of_session user session) table with
      | [] => table
      | rows =>
          match latest rows with
          | Some r => map (set_end (id r)) table
          | None => table
          end
      end
  end.

End MarkSessionEnded.

(** [WHERE user_id = ? AND timestamp LIKE ? AND location_type != 'end'],
    the rows from which [get_active_location_sessions] and
    [save_location] read their session ids. *)
Definition active_row (user : Z) (today : string) (r : location_row) : bool :=
  sql_eq_int (user_id r) user && sql_starts_with (timestamp r) today
  && sql_ne_text (location_type r) "end".

(** Whether [session] is among the ids that
    [get_active_location_sessions(user_id)] returns. *)
Definition listed_active (user : Z) (today : string) (session : string)
           (table : list location_row) : bool :=
  existsb (fun r => active_row user today r
                    && sql_eq_text (session_id r) session) table.

End Database.

(** * Properties *)

(** ** The sort *)

Section SortFacts.

Variables (A K : Type).
Variable lt : K -> K -> option bool.
Variable key : A -> K.

Lemma insert_perm (x : A) (l r : list A) :
  insert lt key x l = Some r -> Permutation (x :: l) r.
Proof.
  revert r; induction l as [|y l IH]; simpl; intros r H.
  - injection H as <-. apply Permutation_refl.
  - destruct (lt (key y) (key x)) as [[|]|]; simpl in H; try discriminate.
    + destruct (insert lt key x l) as [r'|]; simpl in H; try discriminate.
      injection H as <-.
      eapply Permutation_trans; [apply perm_swap|].
      apply perm_skip, IH; reflexivity.
    + injection H as <-. apply Permutation_refl.
Qed.

Lemma sort_perm (l r : list A) :
  sort lt key l = Some r -> Permutation l r.
Proof.
  revert r; induction l as [|x l IH]; simpl; intros r H.
  - injection H as <-. constructor.
  - destruct (sort lt key l) as [s|]; simpl in H; try discriminate.
    eapply Permutation_trans; [apply perm_skip, IH; reflexivity|].
    apply insert_perm; assumption.
Qed.

(** A sort over keys that always compare never raises. *)
Lemma insert_total (x : A) (l : list A) :
  (forall a b, lt a b <> None) -> insert lt key x l <> None.
Proof.
  intros T; induction l as [|y l IH]; simpl; [discriminate|].
  destruct (lt (key y) (key x)) as [[|]|] eqn:E; simpl.
  - destruct (insert lt key x l); simpl; [discriminate|contradiction].
  - discriminate.
  - exfalso; exact (T _ _ E).
Qed.

Lemma sort_total (l : list A) :
  (forall a b, lt a b <> None) -> sort lt key l <> None.
Proof.
  intros T; induction l as [|x l IH]; simpl; [discriminate|].
  destruct (sort lt key l) as [s|]; simpl; [|contradiction].
  apply insert_total; assumption.
Qed.

(** Stability at the head: an element whose key is not greater than the
    key of anything behind it stays first. *)
Lemma insert_head (x : A) (l : list A) :
  Forall (fun y => lt (key y) (key x) = Some false) l ->
  insert lt key x l = Some (x :: l).
Proof.
  intros H; destruct l as [|y l]; simpl; [reflexivity|].
  inversion H as [|? ? Hy _]; subst. rewrite Hy; reflexivity.
Qed.

Section Ordered.

Hypothesis lt_asym : forall a b, lt a b = Some true -> lt b a = Some false.
Hypothesis le_trans : forall a b c,
    lt b a = Some false -> lt c b = Some false -> lt c a = Some false.

Lemma insert_sorted (x : A) (l r : list A) :
  StronglySorted (not_after lt key) l ->
  insert lt key x l = Some r -> StronglySorted (not_after lt key) r.
Proof.
  revert r; induction l as [|y l IH]; simpl; intros r S H.
  - injection H as <-. repeat constructor.
  - apply StronglySorted_inv in S; destruct S as [S F].
    destruct (lt (key y) (key x)) as [[|]|] eqn:E; simpl in H;
      try discriminate.
    + destruct (insert lt key x l) as [r'|] eqn:I; simpl in H;
        try discriminate.
      injection H as <-. constructor; [apply IH; auto|].
      apply (Permutation_Forall (insert_perm x l I)).
      constructor; [apply lt_asym; exact E|exact F].
    + injection H as <-. constructor; [constructor; assumption|].
      constructor; [exact E|].
      revert F; apply Forall_impl; intros z Hz.
      unfold not_after in *. eapply le_trans; eassumption.
Qed.

Lemma sort_sorted (l r : list A) :
  sort lt key l = Some r -> StronglySorted (not_after lt key) r.
Proof.
  revert r; induction l as [|x l IH]; simpl; intros r H.
  - injection H as <-. constructor.
  - destruct (sort lt key l) as [s|]; simpl in H; try discriminate.
    eapply insert_sorted; [apply IH; reflexivity|eassumption].
Qed.

End Ordered.

End SortFacts.

Lemma StronglySorted_filter (A : Type) (rel : A -> A -> Prop)
      (f : A -> bool) (l : list A) :
  StronglySorted rel l -> StronglySorted rel (filter f l).
Proof.
  induction 1 as [|x l S IH F]; simpl; [constructor|].
  destruct (f x); [|exact IH].
  constructor; [exact IH|].
  apply Forall_forall; intros y Hy. apply filter_In in Hy.
  rewrite Forall_forall in F. apply F, Hy.
Qed.

(** ** The order of timestamps *)

Section TimeOrder.

Lemma lex_compare_antisym (a b : list Z) :
  lex_compare b a = CompOpp (lex_compare a b).
Proof.
  revert b; induction a as [|x a IH]; intros [|y b]; simpl; auto.
  rewrite (Z.compare_antisym x y).
  destruct (x ?= y)%Z; simpl; auto.
Qed.

Lemma lex_compare_eq (a b : list Z) : lex_compare a b = Eq -> a = b.
Proof.
  revert b; induction a as [|x a IH]; intros [|y b]; simpl;
    try discriminate; auto.
  destruct (x ?= y)%Z eqn:E; try discriminate.
  intros H. apply Z.compare_eq in E. f_equal; auto.
Qed.

Lemma lex_compare_lt_trans (a b c : list Z) :
  lex_compare a b = Lt -> lex_compare b c = Lt -> lex_compare a c = Lt.
Proof.
  revert b c; induction a as [|x a IH]; intros [|y b] [|z c]; simpl;
    try discriminate; auto.
  destruct (x ?= y)%Z eqn:E1; try discriminate;
    destruct (y ?= z)%Z eqn:E2; try discriminate; intros H1 H2.
  - apply Z.compare_eq in E1, E2. subst. rewrite Z.compare_refl. eauto.
  - apply Z.compare_eq in E1. subst. rewrite E2. reflexivity.
  - apply Z.compare_eq in E2. subst. rewrite E1. reflexivity.
  - rewrite Z.compare_lt_iff in E1, E2.
    assert (E : (x ?= z)%Z = Lt) by (apply Z.compare_lt_iff; lia).
    rewrite E. reflexivity.
Qed.

Lemma dt_ltb_asym (a b : datetime) : dt_ltb a b = true -> dt_ltb b a = false.
Proof.
  unfold dt_ltb. rewrite (lex_compare_antisym (fields a) (fields b)).
  destruct (lex_compare (fields a) (fields b)); simpl; congruence.
Qed.

Lemma dt_le_trans (a b c : datetime) :
  dt_ltb b a = false -> dt_ltb c b = false -> dt_ltb c a = false.
Proof.
  unfold dt_ltb. intros H1 H2.
  destruct (lex_compare (fields c) (fields a)) eqn:E; auto. exfalso.
  destruct (lex_compare (fields c) (fields b)) eqn:E2; try discriminate.
  - apply lex_compare_eq in E2. rewrite <- E2, E in H1. discriminate.
  - assert (X : lex_compare (fields b) (fields c) = Lt)
      by (rewrite lex_compare_antisym, E2; reflexivity).
    rewrite (lex_compare_lt_trans _ _ _ X E) in H1. discriminate.
Qed.

Lemma str_ltb_asym (a b : string) :
  String.ltb a b = true -> String.ltb b a = false.
Proof.
  unfold String.ltb. rewrite (String.compare_antisym b a).
  destruct (String.compare a b); simpl; congruence.
Qed.

Lemma str_compare_lt_trans (a b c : string) :
  String.compare a b = Lt -> String.compare b c = Lt ->
  String.compare a c = Lt.
Proof.
  intros X Y. apply String_as_OT.cmp_lt.
  eapply String_as_OT.lt_trans; apply String_as_OT.cmp_lt; eassumption.
Qed.

Lemma str_le_trans (a b c : string) :
  String.ltb b a = false -> String.ltb c b = false -> String.ltb c a = false.
Proof.
  unfold String.ltb. intros H1 H2.
  destruct (String.compare c a) eqn:E; auto. exfalso.
  destruct (String.compare c b) eqn:E2; try discriminate.
  - apply String.compare_eq_iff in E2. subst. rewrite E in H1. discriminate.
  - assert (X : String.compare b c = Lt)
      by (rewrite String.compare_antisym, E2; reflexivity).
    rewrite (str_compare_lt_trans _ _ _ X E) in H1. discriminate.
Qed.

Lemma time_lt_asym (a b : pytime) :
  time_lt a b = Some true -> time_lt b a = Some false.
Proof.
  destruct a, b; simpl; try discriminate; intros H; injection H as H;
    f_equal; [apply str_ltb_asym|apply dt_ltb_asym]; assumption.
Qed.

Lemma time_le_trans (a b c : pytime) :
  time_lt b a = Some false -> time_lt c b = Some false ->
  time_lt c a = Some false.
Proof.
  destruct a, b, c; simpl; try discriminate; intros H1 H2;
    injection H1 as H1; injection H2 as H2; f_equal;
    [eapply str_le_trans|eapply dt_le_trans]; eassumption.
Qed.

(** Timestamps of one type always compare. *)
Lemma time_lt_dates (a b : pytime) :
  is_str a = false -> is_str b = false -> time_lt a b <> None.
Proof. destruct a, b; simpl; discriminate. Qed.

Lemma time_lt_some_same_type (a b : pytime) (r : bool) :
  time_lt a b = Some r -> is_str a = is_str b.
Proof. destruct a, b; simpl; congruence. Qed.

End TimeOrder.

Lemma Permutation_filter (A : Type) (f : A -> bool) (l l' : list A) :
  Permutation l l' -> Permutation (filter f l) (filter f l').
Proof.
  induction 1 as [|x l l' _ IH|x y l|l l' l'' _ IH1 _ IH2]; simpl.
  - constructor.
  - destruct (f x); [apply perm_skip|]; exact IH.
  - destruct (f x), (f y); try apply Permutation_refl. apply perm_swap.
  - eapply Permutation_trans; eassumption.
Qed.

(** ** Temporal merge *)

Section MergeFacts.

Import DirectMap.

Variable strptime : string -> option datetime.

Lemma filter_status_all_events sts locs :
  filter is_status (all_events sts locs) = map event_of_status sts.
Proof.
  unfold all_events. rewrite filter_app.
  assert (L : filter is_status (map event_of_location locs) = []).
  { induction locs as [|x l IH]; simpl; auto. }
  assert (S : filter is_status (map event_of_status sts)
              = map event_of_status sts).
  { induction sts as [|x l IH]; simpl; [|rewrite IH]; auto. }
  rewrite L, S, app_nil_r. reflexivity.
Qed.

Lemma filter_location_all_events sts locs :
  filter is_location (all_events sts locs) = map event_of_location locs.
Proof.
  unfold all_events. rewrite filter_app.
  assert (L : filter is_location (map event_of_location locs)
              = map event_of_location locs).
  { induction locs as [|x l IH]; simpl; [|rewrite IH]; auto. }
  assert (S : filter is_location (map event_of_status sts) = []).
  { induction sts as [|x l IH]; simpl; auto. }
  rewrite L, S. reflexivity.
Qed.

Lemma merge_perm sts locs evs :
  merge strptime sts locs = Some evs ->
  Permutation (all_events sts locs) evs.
Proof. apply sort_perm. Qed.

Lemma merge_sorted sts locs evs :
  merge strptime sts locs = Some evs -> StronglySorted (chronological strptime) evs.
Proof.
  apply sort_sorted; [apply time_lt_asym|apply time_le_trans].
Qed.

Lemma merge_count_status sts locs evs :
  merge strptime sts locs = Some evs -> count_status evs = List.length sts.
Proof.
  intros H. unfold count_status.
  rewrite <- (Permutation_length
                (Permutation_filter is_status (merge_perm _ _ H))).
  rewrite filter_status_all_events. apply length_map.
Qed.

(** The sort of the merge returns exactly when it never has to compare
    a string with a datetime. *)
Lemma sort_same_type (l r : list event) :
  sort time_lt (safe_sort_key strptime) l = Some r ->
  forall x y, In x l -> In y l ->
              is_str (safe_sort_key strptime x)
              = is_str (safe_sort_key strptime y).
Proof.
  revert r; induction l as [|a l IH]; simpl; intros r H x y Hx Hy;
    [contradiction|].
  destruct (sort time_lt (safe_sort_key strptime) l) as [s|] eqn:S;
    simpl in H; try discriminate.
  assert (Hl : forall z, In z l ->
                         is_str (safe_sort_key strptime z)
                         = is_str (safe_sort_key strptime a)).
  { intros z Hz. destruct s as [|b s'].
    - pose proof (sort_perm _ _ _ S) as P.
      apply Permutation_sym, Permutation_nil in P. subst. contradiction.
    - pose proof (sort_perm _ _ _ S) as P.
      assert (Hb : In b l)
        by (apply (Permutation_in _ (Permutation_sym P)); left; auto).
      simpl in H.
      destruct (time_lt (safe_sort_key strptime b) (safe_sort_key strptime a))
        as [c|] eqn:C; simpl in H; try discriminate.
      apply time_lt_some_same_type in C.
      rewrite <- C. apply (IH _ eq_refl); assumption. }
  destruct Hx as [<-|Hx], Hy as [<-|Hy]; auto.
  - symmetry; auto.
  - rewrite (Hl _ Hx), (Hl _ Hy). reflexivity.
Qed.

Lemma merge_raises_on_mixed_keys sts locs e1 e2 :
  In e1 (all_events sts locs) -> In e2 (all_events sts locs) ->
  is_str (safe_sort_key strptime e1) = true ->
  is_str (safe_sort_key strptime e2) = false ->
  merge strptime sts locs = None.
Proof.
  intros H1 H2 S1 S2. unfold merge.
  destruct (sort time_lt (safe_sort_key strptime) (all_events sts locs))
    as [r|] eqn:E; auto.
  pose proof (sort_same_type _ E e1 e2 H1 H2) as X. congruence.
Qed.

Lemma merge_returns_on_dates sts locs :
  Forall (fun e => is_str (safe_sort_key strptime e) = false)
         (all_events sts locs) ->
  merge strptime sts locs <> None.
Proof.
  unfold merge. generalize (all_events sts locs) as l.
  induction l as [|x l IH]; simpl; intros F; [discriminate|].
  inversion F as [|? ? Hx Hl]; subst.
  destruct (sort time_lt (safe_sort_key strptime) l) as [s|] eqn:S;
    simpl; [|apply IH; assumption].
  assert (Fs : Forall (fun e => is_str (safe_sort_key strptime e) = false) s)
    by (apply (Permutation_Forall (sort_perm _ _ _ S)); assumption).
  clear S IH F Hl. induction s as [|y s IHs]; simpl; [discriminate|].
  inversion Fs as [|? ? Hy Hs]; subst.
  destruct (time_lt (safe_sort_key strptime y) (safe_sort_key strptime x))
    as [[|]|] eqn:C; simpl.
  - destruct (insert time_lt (safe_sort_key strptime) x s); simpl;
      [discriminate|apply IHs; assumption].
  - discriminate.
  - exfalso. revert C. apply time_lt_dates; assumption.
Qed.

End MergeFacts.

(** ** Segmentation *)

Section SegmentationFacts.

Import DirectMap.

Variable locs : list location_event.

Lemma close_segment_points st :
  List.concat (path_segments (close_segment st))
  = List.concat (path_segments st) ++ current_segment st.
Proof.
  unfold close_segment. destruct (current_segment st) as [|p seg] eqn:E;
    simpl.
  - rewrite app_nil_r. reflexivity.
  - rewrite concat_app. simpl. rewrite app_nil_r. reflexivity.
Qed.

Lemma close_segment_current st : current_segment (close_segment st) = [].
Proof.
  unfold close_segment. destruct (current_segment st) eqn:E; simpl; auto.
Qed.

Lemma close_segment_length st :
  (List.length (path_segments (close_segment st))
   <= List.length (path_segments st) + 1)%nat.
Proof.
  unfold close_segment. destruct (current_segment st); simpl; [lia|].
  rewrite length_app. simpl. lia.
Qed.

Lemma close_segment_nonempty st :
  Forall (fun seg => seg <> []) (path_segments st) ->
  Forall (fun seg => seg <> []) (path_segments (close_segment st)).
Proof.
  unfold close_segment. destruct (current_segment st) eqn:E; simpl; auto.
  intros F. apply Forall_app. split; auto. constructor; [|constructor].
  discriminate.
Qed.

(** The loop neither loses nor repeats a point: what has been closed,
    followed by the open segment, grows by the points of the events
    read. *)
Lemma loop_points evs st :
  let st' := fold_left (loop_body locs) evs st in
  List.concat (path_segments st') ++ current_segment st'
  = List.concat (path_segments st) ++ current_segment st ++ timeline_points evs.
Proof.
  revert st; induction evs as [|e evs IH]; intros st; simpl.
  - rewrite app_nil_r. reflexivity.
  - cbv zeta in IH. rewrite IH. destruct e; simpl.
    + rewrite close_segment_points, close_segment_current. simpl.
      rewrite <- app_assoc. reflexivity.
    + rewrite <- !app_assoc. reflexivity.
Qed.

(** Only a status event closes a segment. *)
Lemma loop_count evs st :
  (List.length (path_segments (fold_left (loop_body locs) evs st))
   <= List.length (path_segments st) + count_status evs)%nat.
Proof.
  revert st; induction evs as [|e evs IH]; intros st; simpl; [lia|].
  eapply Nat.le_trans; [apply IH|]. destruct e; simpl.
  - pose proof (close_segment_length st). unfold count_status; simpl. lia.
  - unfold count_status; simpl. lia.
Qed.

Lemma loop_nonempty evs st :
  Forall (fun seg => seg <> []) (path_segments st) ->
  Forall (fun seg => seg <> [])
         (path_segments (fold_left (loop_body locs) evs st)).
Proof.
  revert st; induction evs as [|e evs IH]; intros st F; simpl; auto.
  apply IH. destruct e; simpl; auto. apply close_segment_nonempty, F.
Qed.

Lemma segmentation_points evs :
  List.concat (path_segments (segmentation locs evs)) = timeline_points evs.
Proof.
  unfold segmentation. rewrite close_segment_points.
  exact (loop_points evs loop_init).
Qed.

Lemma segmentation_count evs :
  (List.length (path_segments (segmentation locs evs))
   <= count_status evs + 1)%nat.
Proof.
  unfold segmentation.
  eapply Nat.le_trans; [apply close_segment_length|].
  pose proof (loop_count evs loop_init) as H. simpl in H. lia.
Qed.

(** By construction no segment of the output is empty. *)
Lemma segmentation_nonempty evs :
  Forall (fun seg => seg <> []) (path_segments (segmentation locs evs)).
Proof.
  unfold segmentation. apply close_segment_nonempty, loop_nonempty.
  constructor.
Qed.

Lemma timeline_points_filter evs :
  timeline_points evs = timeline_points (filter is_location evs).
Proof.
  induction evs as [|[k s|k lat lon ty ts] evs IH]; simpl; auto.
  rewrite IH. reflexivity.
Qed.

End SegmentationFacts.

(** C1.  For a merged timeline [evs] of the status events [sts] and the
    location events [locs], the segmentation loop of [create_direct_map]
    produces at most [length sts + 1] segments, and the concatenation of
    the segments, in order, is the list of the points of the location
    events of the timeline: these events are the location events given
    (a permutation of them: none dropped, none duplicated) in
    chronological order. *)
Theorem segmentation_partitions_route
        (strptime : string -> option datetime)
        (sts : list (pytime * string)) (locs : list DirectMap.location_event)
        (evs : list DirectMap.event) :
  DirectMap.merge strptime sts locs = Some evs ->
  let segs := DirectMap.path_segments (DirectMap.segmentation locs evs) in
  (List.length segs <= List.length sts + 1)%nat
  /\ List.concat segs
     = DirectMap.timeline_points (filter DirectMap.is_location evs)
  /\ Permutation (filter DirectMap.is_location evs)
                 (map DirectMap.event_of_location locs)
  /\ StronglySorted (DirectMap.chronological strptime)
                    (filter DirectMap.is_location evs).
Proof.
  intros H segs. subst segs. repeat split.
  - rewrite <- (merge_count_status _ _ _ H). apply segmentation_count.
  - rewrite segmentation_points. apply timeline_points_filter.
  - rewrite <- (filter_location_all_events sts locs).
    apply Permutation_sym, Permutation_filter, merge_perm with strptime.
    exact H.
  - apply StronglySorted_filter. eapply merge_sorted; eassumption.
Qed.

(** The day with two segments is such a timeline. *)
Lemma segmentation_partitions_route_witness :
  DirectMap.merge strptime_padded Scenario.two_status_events
                  Scenario.two_location_events
  = Some Scenario.two_timeline
  /\ let segs := DirectMap.path_segments
                   (DirectMap.segmentation Scenario.two_location_events
                                           Scenario.two_timeline) in
     (List.length segs <= List.length Scenario.two_status_events + 1)%nat
     /\ List.concat segs
        = DirectMap.timeline_points
            (filter DirectMap.is_location Scenario.two_timeline)
     /\ Permutation (filter DirectMap.is_location Scenario.two_timeline)
                    (map DirectMap.event_of_location
                         Scenario.two_location_events)
     /\ StronglySorted (DirectMap.chronological strptime_padded)
                       (filter DirectMap.is_location Scenario.two_timeline).
Proof.
  split; [vm_compute; reflexivity|].
  apply (@segmentation_partitions_route strptime_padded
           Scenario.two_status_events Scenario.two_location_events
           Scenario.two_timeline).
  vm_compute; reflexivity.
Defined.

(** ** Nearest-match *)

Section NearestFacts.

Import DirectMap.

Lemma nearest_location_empty (t : pytime) : nearest_location [] t = None.
Proof. reflexivity. Qed.

(** Location events whose sort keys are all equal keep their order. *)
Lemma sort_uniform (n c : Z) (locs : list location_event) :
  Forall (fun x => closeness n x = c) locs ->
  sort int_lt (closeness n) locs = Some locs.
Proof.
  induction 1 as [|x l Hx Hl IH]; simpl; [reflexivity|].
  rewrite IH. simpl. apply insert_head.
  revert Hl. apply Forall_impl. intros y Hy.
  unfold int_lt. rewrite Hx, Hy, Z.ltb_irrefl. reflexivity.
Qed.

(** A time key of 19 characters is at distance 0 from a status time of
    19 characters, whatever the two times are. *)
Lemma closeness_full_length (x : location_event) :
  len_str19 (le_key x) = 19%Z -> is_str (le_key x) = true ->
  closeness 19 x = 0%Z.
Proof. unfold closeness. intros -> ->. reflexivity. Qed.

(** With full-length time keys throughout, the location chosen for a
    status change is the first one of the day. *)
Lemma nearest_location_first (x : location_event)
      (locs : list location_event) (t : pytime) :
  len_str19 t = 19%Z ->
  Forall (fun y => len_str19 (le_key y) = 19%Z /\ is_str (le_key y) = true)
         (x :: locs) ->
  nearest_location (x :: locs) t = Some x.
Proof.
  intros Ht F. unfold nearest_location. rewrite Ht.
  rewrite (@sort_uniform 19 0 (x :: locs)); [reflexivity|].
  revert F. apply Forall_impl. intros y [H1 H2].
  apply closeness_full_length; assumption.
Qed.

End NearestFacts.

(** C2.  In scenario D the status change to [home] at 17:00 is matched
    with the location of 08:05, the first of the day, although the
    location of 16:55 is five minutes away: the sort key of the
    nearest-match compares the lengths of the time strings, not the
    times.  With no location at all there is no match. *)
Theorem nearest_location_takes_first_sample (lats lons : nat -> R) :
  DirectMap.location_events (Scenario.d_locations lats lons)
  = Some (Scenario.d_location_events lats lons)
  /\ DirectMap.nearest_location (Scenario.d_location_events lats lons)
                                (Scenario.on_day "17:00:00")
     = Some (DirectMap.mkle (Scenario.on_day "08:05:00") (lats 0%nat)
                            (lons 0%nat) "intermediate"
                            (Scenario.on_day "08:05:00"))
  /\ DirectMap.nearest_location [] (Scenario.on_day "17:00:00") = None.
Proof. repeat split; reflexivity. Qed.

(** ** Scenario D *)

(** C3, as the code has it.  In scenario D the segmentation produces
    exactly one segment, holding the ten points in order; the marker of
    each of the ten points is annotated with [office]; one polyline is
    drawn, through the ten points; and a status-change marker for [home]
    is drawn. *)
Theorem scenario_d_one_segment (lats lons : nat -> R) (name date : string) :
  DirectMap.route_segments strptime_padded
    (Scenario.d_locations lats lons) Scenario.d_statuses
  = Some [Scenario.points_at lats lons 10]
  /\ exists m,
      DirectMap.create_direct_map strptime_padded name date
        (Scenario.d_locations lats lons) Scenario.d_statuses
      = Some (DirectMap.map_filename name date, m)
      /\ DirectMap.point_labels (DirectMap.elements m)
         = map (fun p => (p, "office"%string)) (Scenario.points_at lats lons 10)
      /\ map fst (DirectMap.polyline_labels (DirectMap.elements m))
         = [Scenario.points_at lats lons 10]
      /\ In "home"%string
            (map snd (DirectMap.status_change_labels (DirectMap.elements m))).
Proof.
  split; [reflexivity|].
  eexists. split; [reflexivity|].
  repeat split; simpl; auto.
Qed.

(** C3, as stated, fails: scenario D does not yield two segments, the
    second of them empty. *)
Lemma scenario_d_two_segments_refuted :
  ~ (exists first_segment second_segment,
        DirectMap.route_segments strptime_padded
          (Scenario.d_locations Scenario.north Scenario.east)
          Scenario.d_statuses
        = Some [first_segment; second_segment]
        /\ List.length first_segment = 10%nat
        /\ second_segment = []).
Proof.
  intros (s1 & s2 & H & _).
  assert (E : DirectMap.route_segments strptime_padded
                (Scenario.d_locations Scenario.north Scenario.east)
                Scenario.d_statuses
              = Some [Scenario.points_at Scenario.north Scenario.east 10])
    by reflexivity.
  rewrite E in H. discriminate H.
Qed.

(** ** Status annotations *)

Section AnnotationFacts.

Import DirectMap.

Lemma polyline_labels_app (a b : list map_element) :
  polyline_labels (a ++ b) = polyline_labels a ++ polyline_labels b.
Proof.
  induction a as [|e a IH]; simpl; [reflexivity|].
  destruct e; simpl; rewrite ?IH; reflexivity.
Qed.

(** Every polyline is drawn with one and the same status, the value of
    [current_status] after the loop, and has at least two points. *)
Lemma draw_segments_labels (status : string) (segs : list (list point))
      (i : nat) :
  Forall (fun pl => snd pl = status /\ In (fst pl) segs
                    /\ (2 <= List.length (fst pl))%nat)
         (polyline_labels (draw_segments status i segs)).
Proof.
  revert i; induction segs as [|seg segs IH]; intros i; simpl;
    [constructor|].
  rewrite polyline_labels_app. apply Forall_app. split.
  - unfold draw_segment. destruct (1 <? List.length seg)%nat eqn:E; simpl;
      [|constructor].
    apply Nat.ltb_lt in E. constructor; [|constructor].
    simpl. repeat split; auto.
  - generalize (IH (S i)). apply Forall_impl.
    intros pl (H1 & H2 & H3). repeat split; auto.
Qed.

(** A segment of fewer than two points gets no polyline. *)
Lemma draw_segment_short (status : string) (i : nat) (seg : list point) :
  (List.length seg < 2)%nat -> draw_segment status i seg = [].
Proof.
  intros H. unfold draw_segment.
  destruct (Nat.ltb_spec 1 (List.length seg)); [lia|reflexivity].
Qed.

(** Every location event gets a marker of its own, annotated with the
    status current when it is read. *)
Lemma loop_body_location_marker locs st k lat lon ty ts :
  drawn (loop_body locs st (ELocation k lat lon ty ts))
  = drawn st ++ [PointMarker (lat, lon) ty k (current_status st)].
Proof. reflexivity. Qed.

End AnnotationFacts.

(** C4.  On the day with two segments, the first segment is accumulated
    while the status is [office] (its two point markers say so) and the
    second while it is [home]; both polylines are drawn with [home], the
    status left in [current_status] when the loop has ended. *)
Theorem first_segment_drawn_with_last_status :
  let p := fun i : nat => (Scenario.north i, Scenario.east i) in
  let office := "office"%string in
  let home := "home"%string in
  exists m,
    DirectMap.create_direct_map strptime_padded "u" "2025-05-07"
      Scenario.two_locations Scenario.two_statuses
    = Some (DirectMap.map_filename "u" "2025-05-07", m)
    /\ DirectMap.route_segments strptime_padded
         Scenario.two_locations Scenario.two_statuses
       = Some [[p 0; p 1]; [p 2; p 3]]%nat
    /\ DirectMap.point_labels (DirectMap.elements m)
       = [(p 0, office); (p 1, office); (p 2, home); (p 3, home)]%nat
    /\ DirectMap.polyline_labels (DirectMap.elements m)
       = [([p 0; p 1], home); ([p 2; p 3], home)]%nat.
Proof.
  intros p office home. eexists. split; [reflexivity|].
  repeat split; reflexivity.
Qed.

(** ** The sort of the merged timeline *)

(** C5.  A status stamped [2025-05-07 08:00:00] and a location stamped
    [2025-05-07 08:05]: the three sorts of the normalisation return, the
    safe key of the status is a datetime, that of the location the raw
    string, and the sort of the merged timeline raises; so does
    [create_direct_map]. *)
Theorem merge_of_short_timestamp_raises :
  (exists sts locs,
      DirectMap.status_events Scenario.short_statuses = Some sts
      /\ DirectMap.location_events Scenario.short_locations = Some locs
      /\ map (fun e => is_str (DirectMap.safe_sort_key strptime_padded e))
             (DirectMap.all_events sts locs)
         = [false; true]
      /\ DirectMap.merge strptime_padded sts locs = None)
  /\ forall name date,
      DirectMap.create_direct_map strptime_padded name date
        Scenario.short_locations Scenario.short_statuses
      = None.
Proof.
  split.
  - do 2 eexists. split; [reflexivity|]. split; [reflexivity|].
    split; reflexivity.
  - intros name date. reflexivity.
Qed.

(** ** No data *)

(** C7.  With no location and no status, [create_direct_map] returns a
    file name and a map centred on the default location whose only
    element is the explanatory marker, placed at that centre; it does
    not raise. *)
Theorem no_data_map (strptime : string -> option datetime)
        (name date : string) :
  DirectMap.create_direct_map strptime name date [] []
  = Some (DirectMap.map_filename name date,
          DirectMap.mkmap DirectMap.default_center 10 None
            [DirectMap.NoDataMarker DirectMap.default_center])
  /\ DirectMap.create_direct_map strptime name date [] [] <> None
  /\ DirectMap.default_center = (55.7558, 37.6173)%R.
Proof.
  split; [reflexivity|]. split; [discriminate|reflexivity].
Qed.

(** ** Geo-math *)

Section GeoFacts.

Local Open Scope R_scope.



Lemma atan2_0_1 : atan2 0 1 = 0.
Proof.
  unfold atan2. destruct (Rlt_dec 0 1) as [_|H]; [|exfalso; lra].
  replace (0 / 1) with 0 by lra. apply atan_0.
Qed.


(** The haversine term is the same in both directions. *)
Lemma haversine_term_sym (lat1 lon1 lat2 lon2 : R) :
  sin ((lat2 - lat1) / 2) ^ 2 + cos lat1 * cos lat2 * sin ((lon2 - lon1) / 2) ^ 2
  = sin ((lat1 - lat2) / 2) ^ 2 + cos lat2 * cos lat1 * sin ((lon1 - lon2) / 2) ^ 2.
Proof.
  replace ((lat1 - lat2) / 2) with (- ((lat2 - lat1) / 2)) by lra.
  replace ((lon1 - lon2) / 2) with (- ((lon2 - lon1) / 2)) by lra.
  rewrite !sin_neg. ring.
Qed.




Lemma math_sqrt_nonneg (x : R) : 0 <= x -> math_sqrt x = Some (sqrt x).
Proof.
  intros H. unfold math_sqrt.
  destruct (Rlt_dec x 0) as [N|_]; [exfalso; lra|reflexivity].
Qed.

Lemma math_sqrt_negative (x : R) : x < 0 -> math_sqrt x = None.
Proof.
  intros H. unfold math_sqrt.
  destruct (Rlt_dec x 0) as [_|N]; [reflexivity|contradiction].
Qed.

(** In exact arithmetic the term [a] lies between 0 and 1, whatever the
    coordinates. *)
Lemma exact_term_bounds (lat1 lon1 lat2 lon2 : R) :
  0 <= sin ((lat2 - lat1) / 2) ^ 2
       + cos lat1 * cos lat2 * sin ((lon2 - lon1) / 2) ^ 2 <= 1.
Proof.
  pose proof (cos_2a_sin ((lat2 - lat1) / 2)) as D.
  replace (2 * ((lat2 - lat1) / 2)) with (lat2 - lat1) in D by lra.
  rewrite cos_minus in D.
  pose proof (cos_plus lat1 lat2) as P.
  pose proof (COS_bound (lat1 + lat2)) as [P1 P2].
  pose proof (COS_bound (lat2 - lat1)) as [M1 M2].
  rewrite cos_minus in M1, M2.
  pose proof (sin2_cos2 ((lon2 - lon1) / 2)) as Q. unfold Rsqr in Q.
  set (t := sin ((lon2 - lon1) / 2)) in *.
  set (u := cos ((lon2 - lon1) / 2)) in *.
  set (x := sin ((lat2 - lat1) / 2)) in *.
  set (c1 := cos lat1) in *. set (c2 := cos lat2) in *.
  set (s1 := sin lat1) in *. set (s2 := sin lat2) in *.
  assert (T0 : 0 <= t * t) by nra.
  assert (T1 : t * t <= 1) by nra.
  assert (X : x * x = (1 - (c2 * c1 + s2 * s1)) / 2) by lra.
  replace (x ^ 2 + c1 * c2 * t ^ 2) with (x * x + c1 * c2 * (t * t)) by ring.
  rewrite X. rewrite P in P1, P2. split; nra.
Qed.

(** Without rounding the computation returns the haversine distance. *)
Lemma computed_distance_exact (rounding : R -> R -> R -> R -> R)
      (prev_lat prev_lon lat lon : R) :
  rounding prev_lat prev_lon lat lon = 0 ->
  computed_distance rounding prev_lat prev_lon lat lon
  = Some (haversine_distance prev_lat prev_lon lat lon).
Proof.
  intros Z. unfold computed_distance, haversine_distance. cbv zeta.
  rewrite Z, Rplus_0_r.
  pose proof (exact_term_bounds (radians prev_lat) (radians prev_lon)
                (radians lat) (radians lon)) as [L U].
  rewrite (math_sqrt_nonneg L). cbn [bind].
  rewrite math_sqrt_nonneg by lra. reflexivity.
Qed.

(** When rounding moves [a] out of the interval the computation
    raises. *)
Lemma computed_distance_raises (rounding : R -> R -> R -> R -> R)
      (prev_lat prev_lon lat lon : R) :
  let a := sin ((radians lat - radians prev_lat) / 2) ^ 2
           + cos (radians prev_lat) * cos (radians lat)
             * sin ((radians lon - radians prev_lon) / 2) ^ 2
           + rounding prev_lat prev_lon lat lon in
  a < 0 \/ 1 < a ->
  computed_distance rounding prev_lat prev_lon lat lon = None.
Proof.
  intros a H. unfold computed_distance. cbv zeta. fold a.
  destruct H as [H|H].
  - rewrite (math_sqrt_negative H). reflexivity.
  - rewrite math_sqrt_nonneg by lra. cbn [bind].
    rewrite math_sqrt_negative by lra. reflexivity.
Qed.

End GeoFacts.

Lemma speed_kmh_value (distance seconds : R) :
  speed_kmh distance seconds
  = Some (if Rlt_dec 0 seconds then (distance / seconds * 3.6)%R else 0%R).
Proof.
  unfold speed_kmh, py_div.
  destruct (Rlt_dec 0 seconds) as [H|H]; [|reflexivity].
  destruct (Req_dec_T seconds 0) as [E|E]; [exfalso; lra|reflexivity].
Qed.

(** C8.  The speed is [(distance / seconds) * 3.6] when [seconds > 0] and
    [0] otherwise; the division never meets a zero divisor, so the
    computation always returns. *)
Theorem speed_kmh_guarded (distance seconds : R) :
  speed_kmh distance seconds
  = Some (if Rlt_dec 0 seconds then (distance / seconds * 3.6)%R else 0%R).
Proof. apply speed_kmh_value. Qed.

(** The speed of a drawn point is computed by the same guarded division
    and is not bounded either. *)
Lemma point_speed_unbounded (rounding : R -> R -> R -> R -> R)
      (last_lat last_lon lat lon time_diff distance : R) :
  computed_distance rounding last_lat last_lon lat lon = Some distance ->
  RouteRender.point_speed rounding (Some (last_lat, last_lon))
                          (Some time_diff) lat lon
  = Some (if Rlt_dec 0 time_diff
          then (distance / time_diff * 3.6)%R
          else 0%R).
Proof.
  intros D. unfold RouteRender.point_speed. rewrite D. cbn [bind].
  apply speed_kmh_value.
Qed.

(** C9.  The haversine distance of a point to itself is 0, and the
    distance is symmetric. *)
Theorem haversine_zero_and_symmetric (lat1 lon1 lat2 lon2 : R) :
  haversine_distance lat1 lon1 lat1 lon1 = 0%R
  /\ haversine_distance lat1 lon1 lat2 lon2
     = haversine_distance lat2 lon2 lat1 lon1.
Proof.
  split.
  - unfold haversine_distance.
    replace ((radians lat1 - radians lat1) / 2)%R with 0%R by lra.
    replace ((radians lon1 - radians lon1) / 2)%R with 0%R by lra.
    rewrite sin_0.
    replace (0 ^ 2 + cos (radians lat1) * cos (radians lat1) * 0 ^ 2)%R
      with 0%R by ring.
    replace (1 - 0)%R with 1%R by lra.
    rewrite sqrt_0, sqrt_1, atan2_0_1. ring.
  - unfold haversine_distance.
    rewrite (haversine_term_sym (radians lat1) (radians lon1)
                                (radians lat2) (radians lon2)).
    reflexivity.
Qed.

(** ** Movement classifier *)

Section ClassifierFacts.

Import Classifier.
Local Open Scope R_scope.

Lemma truthy_float_0 : truthy_float 0 = false.
Proof.
  unfold truthy_float. destruct (Req_dec_T 0 0) as [_|H]; [reflexivity|].
  exfalso; apply H; reflexivity.
Qed.

Lemma consulted_zero_coordinate (prev : last_location) :
  latitude prev = 0 \/ longitude prev = 0 -> consulted prev = false.
Proof.
  unfold consulted. intros [H|H]; rewrite H, truthy_float_0.
  - reflexivity.
  - rewrite andb_false_r. reflexivity.
Qed.

(** A sample whose predecessor does not pass the guard is handled like
    a first sample. *)
Lemma classify_not_consulted rounding lat lon now send_ok ud prev :
  last_loc ud = Some prev -> consulted prev = false ->
  classify rounding lat lon now send_ok ud
  = Some (mkout ud "intermediate" false).
Proof. unfold classify. intros -> ->. reflexivity. Qed.



End ClassifierFacts.




(** C10.  A predecessor whose latitude or longitude is 0.0 (or whose
    timestamp is empty) is not consulted: the call returns, whatever the
    stored timestamp is, with the label [intermediate]; the accumulator,
    the alert flag and the stored speed are those of before; and the
    outcome is the one of the same data without a predecessor. *)
Theorem zero_coordinate_predecessor_ignored
        (rounding : R -> R -> R -> R -> R)
        (lat lon now : R) (send_ok : bool)
        (ud : Classifier.user_data) (prev : Classifier.last_location) :
  Classifier.last_loc ud = Some prev ->
  Classifier.latitude prev = 0%R \/ Classifier.longitude prev = 0%R
  \/ Classifier.timestamp prev = Classifier.IsoEmpty ->
  Classifier.handle_location rounding lat lon now send_ok (Some ud)
  = Some (Classifier.mkout
            (Classifier.mkuser
               (Classifier.movement_status ud)
               (Classifier.stationary_duration ud)
               (Some (Classifier.mklast lat lon (Classifier.IsoTime now)
                        (Classifier.movement_status ud)
                        (match Classifier.speed ud with
                         | Some v => v
                         | None => 0%R
                         end)))
               (Classifier.admin_notified ud)
               (Classifier.speed ud))
            "intermediate" false)
  /\ Classifier.handle_location rounding lat lon now send_ok (Some ud)
     = Classifier.handle_location rounding lat lon now send_ok
         (Some (Classifier.mkuser
                  (Classifier.movement_status ud)
                  (Classifier.stationary_duration ud)
                  None
                  (Classifier.admin_notified ud)
                  (Classifier.speed ud))).
Proof.
  intros Hl Hz.
  assert (Hc : Classifier.consulted prev = false).
  { destruct Hz as [H|[H|H]].
    - apply consulted_zero_coordinate; left; exact H.
    - apply consulted_zero_coordinate; right; exact H.
    - unfold Classifier.consulted. rewrite H. apply andb_false_r. }
  unfold Classifier.handle_location.
  rewrite (@classify_not_consulted rounding lat lon now send_ok ud prev Hl Hc).
  split; reflexivity.
Qed.

(** A predecessor on the equator whose stored timestamp would not even
    parse. *)
Lemma zero_coordinate_predecessor_ignored_witness :
  let prev := Classifier.mklast 0 37.6173 Classifier.IsoInvalid "moving" 12 in
  let ud := Classifier.mkuser "moving" 120 (Some prev) (Some false)
                              (Some 12%R) in
  Classifier.handle_location no_rounding 1 37.6173 60 true (Some ud)
  = Some (Classifier.mkout
            (Classifier.mkuser "moving" 120
               (Some (Classifier.mklast 1 37.6173 (Classifier.IsoTime 60)
                                        "moving" 12))
               (Some false) (Some 12%R))
            "intermediate" false)
  /\ Classifier.handle_location no_rounding 1 37.6173 60 true (Some ud)
     = Classifier.handle_location no_rounding 1 37.6173 60 true
         (Some (Classifier.mkuser "moving" 120 None (Some false) (Some 12%R))).
Proof.
  apply (@zero_coordinate_predecessor_ignored no_rounding 1 37.6173 60 true
           (Classifier.mkuser "moving" 120
              (Some (Classifier.mklast 0 37.6173 Classifier.IsoInvalid
                                       "moving" 12))
              (Some false) (Some 12%R))
           (Classifier.mklast 0 37.6173 Classifier.IsoInvalid "moving" 12)).
  - reflexivity.
  - left; reflexivity.
Defined.

(** * Further properties *)

Unset Implicit Arguments.

(** ** Segments *)

Lemma length_concat_nonempty (A : Type) (l : list (list A)) :
  Forall (fun seg => seg <> []) l ->
  (List.length l <= List.length (List.concat l))%nat.
Proof.
  induction 1 as [|seg l Hs _ IH]; simpl; [lia|].
  rewrite length_app. destruct seg as [|a seg]; [congruence|]. simpl. lia.
Qed.

(** X1.  Whatever the timeline, no segment of [path_segments] is empty, so
    there are never more segments than location events. *)
Theorem segments_never_empty
        (locs : list DirectMap.location_event) (evs : list DirectMap.event) :
  let segs := DirectMap.path_segments (DirectMap.segmentation locs evs) in
  Forall (fun seg => seg <> []) segs
  /\ (List.length segs
      <= List.length (filter DirectMap.is_location evs))%nat.
Proof.
  intros segs. subst segs. split; [apply segmentation_nonempty|].
  eapply Nat.le_trans;
    [apply length_concat_nonempty, segmentation_nonempty|].
  rewrite segmentation_points.
  induction evs as [|[k s|k lat lon ty ts] evs IH]; simpl; lia.
Qed.

(** ** When the sorts return *)

Section SortReturns.

Variable A : Type.
Variable key : A -> pytime.

Lemma time_lt_same_type (a b : pytime) :
  is_str a = is_str b -> time_lt a b <> None.
Proof. destruct a, b; simpl; discriminate. Qed.

Lemma insert_returns_one_kind (b : bool) (x : A) (l : list A) :
  is_str (key x) = b -> Forall (fun y => is_str (key y) = b) l ->
  insert time_lt key x l <> None.
Proof.
  intros Hx. induction 1 as [|y l Hy _ IH]; simpl; [discriminate|].
  destruct (time_lt (key y) (key x)) as [[|]|] eqn:C; simpl.
  - destruct (insert time_lt key x l); simpl; [discriminate|exact IH].
  - discriminate.
  - exfalso. apply (time_lt_same_type (key y) (key x));
      [congruence|exact C].
Qed.

Lemma sort_returns_one_kind (b : bool) (l : list A) :
  Forall (fun y => is_str (key y) = b) l -> sort time_lt key l <> None.
Proof.
  induction 1 as [|x l Hx Hl IH]; simpl; [discriminate|].
  destruct (sort time_lt key l) as [s|] eqn:S; simpl; [|exact IH].
  apply insert_returns_one_kind with b; [exact Hx|].
  apply (Permutation_Forall (@sort_perm _ _ _ _ _ _ S)). exact Hl.
Qed.

End SortReturns.

(** X2.  The sort of the merged timeline returns exactly when the safe
    keys of all events are of one type: all datetimes or all strings. *)
Theorem merge_returns_iff_one_kind
        (strptime : string -> option datetime)
        (sts : list (pytime * string)) (locs : list DirectMap.location_event) :
  DirectMap.merge strptime sts locs <> None
  <-> (forall e1 e2,
          In e1 (DirectMap.all_events sts locs) ->
          In e2 (DirectMap.all_events sts locs) ->
          is_str (DirectMap.safe_sort_key strptime e1)
          = is_str (DirectMap.safe_sort_key strptime e2)).
Proof.
  split.
  - intros H e1 e2 H1 H2. unfold DirectMap.merge in H.
    destruct (sort time_lt (DirectMap.safe_sort_key strptime)
                   (DirectMap.all_events sts locs)) as [r|] eqn:E;
      [|congruence].
    exact (@sort_same_type strptime _ _ E e1 e2 H1 H2).
  - intros H. unfold DirectMap.merge.
    destruct (DirectMap.all_events sts locs) as [|e l] eqn:E;
      [simpl; discriminate|].
    apply sort_returns_one_kind
      with (b := is_str (DirectMap.safe_sort_key strptime e)).
    apply Forall_forall. intros y Hy. apply H; [exact Hy|left; reflexivity].
Qed.

(** ** Stability of the sort *)

Section Stable.

Variables (A K : Type).
Variable lt : K -> K -> option bool.
Variable eqb : K -> K -> bool.
Variable key : A -> K.

(** Two keys equal to a third one are not strictly ordered. *)
Hypothesis lt_eqb : forall a b k,
    lt a b = Some true -> eqb a k = true -> eqb b k = true -> False.

Lemma insert_stable (k : K) (x : A) (l r : list A) :
  insert lt key x l = Some r ->
  filter (fun y => eqb (key y) k) r
  = filter (fun y => eqb (key y) k) (x :: l).
Proof.
  revert r; induction l as [|y l IH]; simpl; intros r H.
  - injection H as <-. reflexivity.
  - destruct (lt (key y) (key x)) as [[|]|] eqn:C; simpl in H;
      try discriminate.
    + destruct (insert lt key x l) as [r'|] eqn:I; simpl in H;
        try discriminate.
      injection H as <-. simpl. rewrite (IH r' eq_refl). simpl.
      destruct (eqb (key x) k) eqn:Ex, (eqb (key y) k) eqn:Ey;
        try reflexivity.
      exfalso. exact (lt_eqb _ _ _ C Ey Ex).
    + injection H as <-. reflexivity.
Qed.

Lemma sort_stable (k : K) (l r : list A) :
  sort lt key l = Some r ->
  filter (fun y => eqb (key y) k) r = filter (fun y => eqb (key y) k) l.
Proof.
  revert r; induction l as [|x l IH]; simpl; intros r H.
  - injection H as <-. reflexivity.
  - destruct (sort lt key l) as [s|] eqn:S; simpl in H; try discriminate.
    rewrite (insert_stable k x s r H). simpl. rewrite (IH s eq_refl).
    reflexivity.
Qed.

End Stable.

Lemma lex_compare_refl (a : list Z) : lex_compare a a = Eq.
Proof.
  induction a as [|x a IH]; simpl; [reflexivity|].
  rewrite Z.compare_refl. exact IH.
Qed.

Lemma time_lt_eqb (a b k : pytime) :
  time_lt a b = Some true -> Timeline.time_eqb a k = true ->
  Timeline.time_eqb b k = true -> False.
Proof.
  destruct a as [x|x], b as [y|y], k as [z|z]; simpl; try discriminate;
    intros H Ha Hb.
  - apply String.eqb_eq in Ha, Hb. subst.
    injection H as H. unfold String.ltb in H.
    assert (E : String.compare z z = Eq)
      by (apply String_as_OT.cmp_eq; reflexivity).
    rewrite E in H. discriminate.
  - unfold Timeline.dt_eqb in Ha, Hb.
    destruct (lex_compare (fields x) (fields z)) eqn:Ex; try discriminate.
    destruct (lex_compare (fields y) (fields z)) eqn:Ey; try discriminate.
    apply lex_compare_eq in Ex, Ey.
    injection H as H. unfold dt_ltb in H.
    rewrite Ex, Ey, lex_compare_refl in H. discriminate.
Qed.

Lemma filter_of_map (A B : Type) (f : B -> bool) (g : A -> B) (l : list A) :
  filter f (map g l) = map g (filter (fun x => f (g x)) l).
Proof.
  induction l as [|x l IH]; simpl; [reflexivity|].
  destruct (f (g x)); simpl; rewrite IH; reflexivity.
Qed.

(** X3.  When the sort of the merged timeline returns, its result holds
    the same events as [all_events], in chronological order, and events
    with equal keys keep the order they have in [all_events]: status
    events first, then location events, each in their own order. *)
Theorem merge_is_stable
        (strptime : string -> option datetime)
        (sts : list (pytime * string)) (locs : list DirectMap.location_event)
        (evs : list DirectMap.event) :
  DirectMap.merge strptime sts locs = Some evs ->
  Permutation (DirectMap.all_events sts locs) evs
  /\ StronglySorted (DirectMap.chronological strptime) evs
  /\ forall k : pytime,
      filter (fun e => Timeline.time_eqb
                         (DirectMap.safe_sort_key strptime e) k) evs
      = map DirectMap.event_of_status
            (filter (fun x => Timeline.time_eqb
                                (DirectMap.safe_sort_key strptime
                                   (DirectMap.event_of_status x)) k) sts)
        ++ map DirectMap.event_of_location
               (filter (fun x => Timeline.time_eqb
                                   (DirectMap.safe_sort_key strptime
                                      (DirectMap.event_of_location x)) k)
                       locs).
Proof.
  intros H. split; [exact (@merge_perm strptime sts locs evs H)|].
  split; [exact (@merge_sorted strptime sts locs evs H)|].
  intros k. unfold DirectMap.merge in H.
  rewrite (sort_stable _ _ time_lt Timeline.time_eqb
             (DirectMap.safe_sort_key strptime) time_lt_eqb k _ _ H).
  unfold DirectMap.all_events. rewrite filter_app, !filter_of_map.
  reflexivity.
Qed.

(** A day with ties: [all_events] holds the two statuses and then the
    two locations; the sort brings each location behind the status of the
    same second, and the events with the key of 09:00:00 are [office]
    followed by the first location. *)
Lemma merge_is_stable_witness :
  DirectMap.all_events Scenario.tie_status_events
                       Scenario.tie_location_events
  = map DirectMap.event_of_status Scenario.tie_status_events
    ++ map DirectMap.event_of_location Scenario.tie_location_events
  /\ filter (fun e => Timeline.time_eqb
                        (DirectMap.safe_sort_key strptime_padded e)
                        (DirectMap.safe_sort_key strptime_padded
                           (DirectMap.EStatus
                              (Scenario.on_day "09:00:00") "office")))
            Scenario.tie_timeline
     = firstn 2 Scenario.tie_timeline
  /\ DirectMap.merge strptime_padded Scenario.tie_status_events
                     Scenario.tie_location_events
     = Some Scenario.tie_timeline
  /\ Permutation (DirectMap.all_events Scenario.tie_status_events
                                       Scenario.tie_location_events)
                 Scenario.tie_timeline
  /\ StronglySorted (DirectMap.chronological strptime_padded)
                    Scenario.tie_timeline
  /\ forall k : pytime,
      filter (fun e => Timeline.time_eqb
                         (DirectMap.safe_sort_key strptime_padded e) k)
             Scenario.tie_timeline
      = map DirectMap.event_of_status
            (filter (fun x => Timeline.time_eqb
                                (DirectMap.safe_sort_key strptime_padded
                                   (DirectMap.event_of_status x)) k)
                    Scenario.tie_status_events)
        ++ map DirectMap.event_of_location
               (filter (fun x => Timeline.time_eqb
                                   (DirectMap.safe_sort_key strptime_padded
                                      (DirectMap.event_of_location x)) k)
                       Scenario.tie_location_events).
Proof.
  split; [reflexivity|]. split; [vm_compute; reflexivity|].
  assert (H : DirectMap.merge strptime_padded Scenario.tie_status_events
                              Scenario.tie_location_events
              = Some Scenario.tie_timeline)
    by (vm_compute; reflexivity).
  split; [exact H|].
  exact (merge_is_stable strptime_padded Scenario.tie_status_events
           Scenario.tie_location_events Scenario.tie_timeline H).
Defined.

(** ** Markers *)

(** X4.  As soon as there is one location event, the nearest-match
    returns, and what it returns is one of the location events: every
    status change is drawn at the position of a recorded location. *)
Theorem nearest_location_is_a_location
        (x : DirectMap.location_event) (locs : list DirectMap.location_event)
        (time_key : pytime) :
  exists c,
    DirectMap.nearest_location (x :: locs) time_key = Some c
    /\ In c (x :: locs).
Proof.
  unfold DirectMap.nearest_location.
  destruct (sort DirectMap.int_lt
                 (DirectMap.closeness (len_str19 time_key)) (x :: locs))
    as [r|] eqn:E.
  - pose proof (@sort_perm _ _ _ _ _ _ E) as P.
    destruct r as [|c r].
    + apply Permutation_sym, Permutation_nil in P. discriminate.
    + exists c. split; [reflexivity|].
      apply (Permutation_in _ (Permutation_sym P)). left; reflexivity.
  - exfalso. revert E. apply sort_total. intros a b. discriminate.
Qed.

(** X5.  A polyline is drawn for exactly the segments of two or more
    points, in the order of the segments, and all polylines carry one
    and the same status. *)
Theorem polylines_for_long_segments
        (status : string) (i : nat) (segs : list (list DirectMap.point)) :
  DirectMap.polyline_labels (DirectMap.draw_segments status i segs)
  = map (fun seg => (seg, status))
        (filter (fun seg => (1 <? List.length seg)%nat) segs).
Proof.
  revert i; induction segs as [|seg segs IH]; intros i; simpl;
    [reflexivity|].
  rewrite polyline_labels_app, IH. unfold DirectMap.draw_segment.
  destruct (1 <? List.length seg)%nat; reflexivity.
Qed.

Section LoopFacts.

Import DirectMap.

Variable locs : list location_event.

Lemma loop_current_status (evs : list event) (st : loop_state) :
  current_status (fold_left (loop_body locs) evs st)
  = fold_left (fun cur e => match e with
                            | EStatus _ status => status
                            | ELocation _ _ _ _ _ => cur
                            end) evs (current_status st).
Proof.
  revert st; induction evs as [|e evs IH]; intros st; simpl; [reflexivity|].
  rewrite IH. destruct e; reflexivity.
Qed.

Lemma close_segment_drawn (st : loop_state) :
  drawn (close_segment st) = drawn st.
Proof.
  unfold close_segment. destruct (is_empty (current_segment st)); reflexivity.
Qed.

(** Nothing drawn is ever taken back. *)
Lemma loop_drawn_grows (evs : list event) (st : loop_state) (m : map_element) :
  In m (drawn st) -> In m (drawn (fold_left (loop_body locs) evs st)).
Proof.
  revert st; induction evs as [|e evs IH]; intros st H; simpl; [exact H|].
  apply IH. destruct e; simpl.
  - apply in_or_app. left. rewrite close_segment_drawn. exact H.
  - apply in_or_app. left. exact H.
Qed.

End LoopFacts.

(** X6.  The marker of a location event carries the status of the last
    status event that precedes it in the timeline, and the initial
    status when none does. *)
Theorem point_marker_carries_last_status
        (locs : list DirectMap.location_event)
        (pre post : list DirectMap.event)
        (k : pytime) (lat lon : R) (ty : string) (ts : pytime) :
  In (DirectMap.PointMarker (lat, lon) ty k (Timeline.last_status pre))
     (DirectMap.drawn
        (DirectMap.segmentation
           locs (pre ++ DirectMap.ELocation k lat lon ty ts :: post))).
Proof.
  unfold DirectMap.segmentation. rewrite close_segment_drawn.
  rewrite fold_left_app. simpl. apply loop_drawn_grows. simpl.
  apply in_or_app. right. left.
  rewrite loop_current_status. reflexivity.
Qed.

(** ** Fetching the locations *)

Section FetchFacts.

Import Fetch.
Local Open Scope R_scope.

Variable float_of_text : string -> option R.
Variable float_of_bytes : string -> option R.

Lemma in_range_bounds (lat lon : R) :
  in_range lat lon = true <-> (-90 <= lat <= 90 /\ -180 <= lon <= 180).
Proof.
  unfold in_range.
  destruct (Rle_dec (-90) lat), (Rle_dec lat 90), (Rle_dec (-180) lon),
    (Rle_dec lon 180); simpl; split; intros H;
    try discriminate; try reflexivity; try tauto.
Qed.

Lemma check_row_bounds (loc : fetched_row) (v : valid_row) :
  check_row float_of_text float_of_bytes loc = Some v ->
  -90 <= v_lat v <= 90 /\ -180 <= v_lon v <= 180.
Proof.
  unfold check_row.
  destruct (py_float float_of_text float_of_bytes (f_latitude loc)) as [lat|];
    [|discriminate].
  destruct (py_float float_of_text float_of_bytes (f_longitude loc)) as [lon|];
    [|discriminate].
  destruct (in_range lat lon) eqn:E; [|discriminate].
  intros H. injection H as <-. simpl. apply in_range_bounds. exact E.
Qed.

End FetchFacts.

(** X7.  Whatever the database returns, every row that
    [get_locations_from_db] keeps has its latitude in [-90, 90] and its
    longitude in [-180, 180], and no row is added. *)
Theorem fetched_locations_in_range
        (float_of_text float_of_bytes : string -> option R)
        (all_locations : list Fetch.fetched_row) :
  Forall (fun v => (-90 <= Fetch.v_lat v <= 90
                    /\ -180 <= Fetch.v_lon v <= 180)%R)
         (Fetch.get_locations_from_db float_of_text float_of_bytes
                                      all_locations)
  /\ (List.length (Fetch.get_locations_from_db float_of_text float_of_bytes
                                               all_locations)
      <= List.length all_locations)%nat.
Proof.
  induction all_locations as [|loc rest [IH1 IH2]]; simpl.
  - split; [constructor|lia].
  - destruct (Fetch.check_row float_of_text float_of_bytes loc) as [v|] eqn:E.
    + split; [constructor; [|exact IH1]|simpl; lia].
      exact (check_row_bounds float_of_text float_of_bytes loc v E).
    + split; [exact IH1|lia].
Qed.

(** X8.  Rows whose coordinates are stored as reals within range come
    back all, in the order fetched, with their coordinates and their
    other columns unchanged. *)
Theorem fetched_real_rows_kept
        (float_of_text float_of_bytes : string -> option R)
        (rows : list Fetch.valid_row) :
  Forall (fun v => (-90 <= Fetch.v_lat v <= 90
                    /\ -180 <= Fetch.v_lon v <= 180)%R) rows ->
  Fetch.get_locations_from_db float_of_text float_of_bytes
    (map (fun v => Fetch.mkfetched (Fetch.SqlReal (Fetch.v_lat v))
                                   (Fetch.SqlReal (Fetch.v_lon v))
                                   (Fetch.v_time v) (Fetch.v_session v)
                                   (Fetch.v_type v)) rows)
  = rows.
Proof.
  induction 1 as [|v rows Hv _ IH]; simpl; [reflexivity|].
  unfold Fetch.check_row. simpl.
  destruct (Fetch.in_range (Fetch.v_lat v) (Fetch.v_lon v)) eqn:E.
  - rewrite IH. destruct v; reflexivity.
  - apply in_range_bounds in Hv. congruence.
Qed.

Lemma fetched_real_rows_kept_witness :
  Fetch.get_locations_from_db (fun _ => None) (fun _ => None)
    (map (fun v => Fetch.mkfetched (Fetch.SqlReal (Fetch.v_lat v))
                                   (Fetch.SqlReal (Fetch.v_lon v))
                                   (Fetch.v_time v) (Fetch.v_session v)
                                   (Fetch.v_type v))
         [Fetch.mkvalid 55.7558 37.6173
            (Fetch.SqlText "2025-05-07 08:05:00")
            (Fetch.SqlText "session_1") (Fetch.SqlText "start")])
  = [Fetch.mkvalid 55.7558 37.6173 (Fetch.SqlText "2025-05-07 08:05:00")
                   (Fetch.SqlText "session_1") (Fetch.SqlText "start")].
Proof.
  apply (fetched_real_rows_kept (fun _ => None) (fun _ => None)).
  repeat constructor; simpl; lra.
Defined.

(** ** The centre of the map *)

Section CentreFacts.

Local Open Scope R_scope.

Lemma sum_from_bounds (lo hi : R) (l : list R) (a : R) :
  Forall (fun x => lo <= x <= hi) l ->
  a + INR (List.length l) * lo <= fold_left Rplus l a
  <= a + INR (List.length l) * hi.
Proof.
  intros F. revert a. induction F as [|x l Hx _ IH]; intros a.
  - simpl. lra.
  - cbn [fold_left List.length]. rewrite S_INR.
    specialize (IH (a + x)). lra.
Qed.

Lemma mean_bounds (lo hi : R) (l : list R) :
  l <> [] -> Forall (fun x => lo <= x <= hi) l ->
  lo <= DirectMap.sum l / INR (List.length l) <= hi.
Proof.
  intros Hne F. pose proof (sum_from_bounds lo hi l 0 F) as [H1 H2].
  assert (Hn : 0 < INR (List.length l)).
  { destruct l as [|x l]; [congruence|]. apply lt_0_INR. simpl. lia. }
  unfold DirectMap.sum. split.
  - apply Rmult_le_reg_r with (INR (List.length l)); [exact Hn|].
    unfold Rdiv. rewrite Rmult_assoc, Rinv_l; lra.
  - apply Rmult_le_reg_r with (INR (List.length l)); [exact Hn|].
    unfold Rdiv. rewrite Rmult_assoc, Rinv_l; lra.
Qed.

End CentreFacts.

(** X9.  When there is at least one location and all locations have
    valid coordinates, the map that [create_direct_map] returns is
    centred on a valid coordinate: the latitude of the centre lies in
    [-90, 90] and its longitude in [-180, 180]. *)
Theorem map_centre_in_range
        (strptime : string -> option datetime) (name date : string)
        (valid_locations : list DirectMap.location_row)
        (status_history : list DirectMap.status_row)
        (file : string) (m : DirectMap.folium_map) :
  valid_locations <> [] ->
  Forall Timeline.valid_coordinates valid_locations ->
  DirectMap.create_direct_map strptime name date valid_locations
                              status_history
  = Some (file, m) ->
  (-90 <= fst (DirectMap.location m) <= 90
   /\ -180 <= snd (DirectMap.location m) <= 180)%R.
Proof.
  intros Hne F H. unfold DirectMap.create_direct_map in H.
  assert (E : DirectMap.is_empty valid_locations = false)
    by (destruct valid_locations; [congruence|reflexivity]).
  rewrite E in H. cbv beta iota zeta delta [andb] in H.
  destruct (DirectMap.timeline strptime valid_locations status_history)
    as [t|]; [|discriminate].
  cbv beta iota delta [bind] in H. injection H as _ <-.
  cbn [DirectMap.location fst snd].
  assert (Hlat : map DirectMap.loc_lat valid_locations <> [])
    by (destruct valid_locations; [congruence|discriminate]).
  assert (Hlon : map DirectMap.loc_lon valid_locations <> [])
    by (destruct valid_locations; [congruence|discriminate]).
  split.
  - rewrite <- (length_map DirectMap.loc_lat valid_locations).
    apply mean_bounds; [exact Hlat|].
    apply Forall_map. revert F. apply Forall_impl. intros x [Hx _]. exact Hx.
  - rewrite <- (length_map DirectMap.loc_lon valid_locations).
    apply mean_bounds; [exact Hlon|].
    apply Forall_map. revert F. apply Forall_impl. intros x [_ Hx]. exact Hx.
Qed.

Lemma map_centre_in_range_witness :
  exists file m,
    DirectMap.create_direct_map strptime_padded "u" "2025-05-07"
      Scenario.two_locations Scenario.two_statuses
    = Some (file, m)
    /\ (-90 <= fst (DirectMap.location m) <= 90
        /\ -180 <= snd (DirectMap.location m) <= 180)%R.
Proof.
  eexists. eexists. split; [reflexivity|].
  eapply (map_centre_in_range strptime_padded "u" "2025-05-07"
            Scenario.two_locations Scenario.two_statuses).
  - discriminate.
  - unfold Scenario.two_locations, Scenario.rows_at, Timeline.valid_coordinates.
    simpl. unfold Scenario.north, Scenario.east. simpl.
    repeat constructor; simpl; lra.
  - reflexivity.
Defined.

(** ** Well-formed days *)

Lemma substring_prefix_idem (n : nat) (s : string) :
  substring 0 n (substring 0 n s) = substring 0 n s.
Proof.
  revert s; induction n as [|n IH]; intros s.
  - destruct s; reflexivity.
  - destruct s as [|c s]; simpl; [reflexivity|]. rewrite IH. reflexivity.
Qed.

Lemma slice19_idem (s : string) : slice19 (slice19 s) = slice19 s.
Proof. apply substring_prefix_idem. Qed.

Section Parseable.

Import DirectMap.

Variable strptime : string -> option datetime.

Lemma parses_good_key (t : pytime) :
  Timeline.parses strptime t = true ->
  Timeline.good_key strptime (time_key_of t).
Proof.
  destruct t as [s|d]; simpl; [|discriminate].
  destruct (strptime (slice19 s)) as [d|] eqn:E; [|discriminate].
  intros _. split; [reflexivity|].
  intros e He. unfold safe_sort_key. rewrite He, slice19_idem, E. reflexivity.
Qed.

Lemma parses_is_str (t : pytime) :
  Timeline.parses strptime t = true -> is_str t = true.
Proof. destruct t; simpl; [reflexivity|discriminate]. Qed.

Lemma status_events_return (sh : list status_row) :
  forallb (fun r => Timeline.parses strptime (st_time r)) sh = true ->
  exists sts,
    status_events sh = Some sts /\ Forall (fun x => Timeline.good_key strptime (fst x)) sts.
Proof.
  intros H. unfold status_events.
  assert (F : Forall (fun x : pytime * string => Timeline.good_key strptime (fst x))
                     (map (fun r => (time_key_of (st_time r), st_status r)) sh)).
  { apply Forall_map, Forall_forall. intros r Hr. simpl.
    apply parses_good_key. rewrite forallb_forall in H. exact (H r Hr). }
  destruct (sort time_lt fst
                 (map (fun r => (time_key_of (st_time r), st_status r)) sh))
    as [sts|] eqn:E.
  - exists sts. split; [reflexivity|].
    exact (Permutation_Forall (@sort_perm _ _ _ _ _ _ E) F).
  - exfalso. revert E. apply sort_returns_one_kind with (b := true).
    revert F. apply Forall_impl. intros x [Hx _]. exact Hx.
Qed.

Lemma location_events_return (vl : list location_row) :
  forallb (fun r => Timeline.parses strptime (loc_time r)) vl = true ->
  exists locs,
    location_events vl = Some locs
    /\ Forall (fun x => Timeline.good_key strptime (le_key x)) locs.
Proof.
  intros H. unfold location_events.
  assert (F : Forall (fun r => Timeline.parses strptime (loc_time r) = true) vl)
    by (apply Forall_forall; rewrite forallb_forall in H; exact H).
  destruct (sort time_lt loc_time vl) as [rows|] eqn:E.
  - cbn [bind].
    pose proof (Permutation_Forall (@sort_perm _ _ _ _ _ _ E) F) as F'.
    set (conv := fun r => mkle (time_key_of (loc_time r)) (loc_lat r)
                               (loc_lon r) (loc_type r) (loc_time r)).
    assert (G : Forall (fun x => Timeline.good_key strptime (le_key x)) (map conv rows)).
    { apply Forall_map. revert F'. apply Forall_impl. intros r Hr.
      simpl. apply parses_good_key. exact Hr. }
    destruct (sort time_lt le_key (map conv rows)) as [locs|] eqn:E2.
    + exists locs. split; [reflexivity|].
      exact (Permutation_Forall (@sort_perm _ _ _ _ _ _ E2) G).
    + exfalso. revert E2. apply sort_returns_one_kind with (b := true).
      revert G. apply Forall_impl. intros x [Hx _]. exact Hx.
  - exfalso. revert E. apply sort_returns_one_kind with (b := true).
    revert F. apply Forall_impl. intros r Hr. apply parses_is_str. exact Hr.
Qed.

Lemma merge_returns_on_good_keys (sts : list (pytime * string))
      (locs : list location_event) :
  Forall (fun x => Timeline.good_key strptime (fst x)) sts ->
  Forall (fun x => Timeline.good_key strptime (le_key x)) locs ->
  merge strptime sts locs <> None.
Proof.
  intros Fs Fl. apply merge_returns_on_dates. unfold all_events.
  apply Forall_app. split; apply Forall_map.
  - revert Fs. apply Forall_impl. intros x [_ Hx]. apply Hx. reflexivity.
  - revert Fl. apply Forall_impl. intros x [_ Hx]. apply Hx. reflexivity.
Qed.

Lemma timeline_returns (vl : list location_row) (sh : list status_row) :
  forallb (fun r => Timeline.parses strptime (loc_time r)) vl = true ->
  forallb (fun r => Timeline.parses strptime (st_time r)) sh = true ->
  timeline strptime vl sh <> None.
Proof.
  intros Hl Hs. unfold timeline.
  destruct (status_events_return sh Hs) as (sts & -> & Fs).
  destruct (location_events_return vl Hl) as (locs & -> & Fl).
  cbn [bind].
  destruct (merge strptime sts locs) eqn:E; cbn [bind]; [discriminate|].
  exfalso. revert E. apply merge_returns_on_good_keys; assumption.
Qed.

End Parseable.

(** X10.  When every location and every status carries a timestamp string
    that [strptime] accepts (after the cut to 19 characters),
    [create_direct_map] raises nothing: it returns a map, under the file
    name made of the user name and the date. *)
Theorem direct_map_returns_on_parseable_rows
        (strptime : string -> option datetime) (name date : string)
        (valid_locations : list DirectMap.location_row)
        (status_history : list DirectMap.status_row) :
  forallb (fun r => Timeline.parses strptime (DirectMap.loc_time r))
          valid_locations = true ->
  forallb (fun r => Timeline.parses strptime (DirectMap.st_time r))
          status_history = true ->
  exists m,
    DirectMap.create_direct_map strptime name date valid_locations
                                status_history
    = Some (DirectMap.map_filename name date, m).
Proof.
  intros Hl Hs. unfold DirectMap.create_direct_map.
  destruct (DirectMap.is_empty valid_locations
            && DirectMap.is_empty status_history); [eexists; reflexivity|].
  cbv zeta.
  destruct (DirectMap.is_empty valid_locations); [eexists; reflexivity|].
  pose proof (timeline_returns strptime valid_locations status_history Hl Hs)
    as T.
  destruct (DirectMap.timeline strptime valid_locations status_history)
    as [t|]; [|congruence].
  cbn [bind]. eexists; reflexivity.
Qed.

Lemma direct_map_returns_on_parseable_rows_witness :
  exists m,
    DirectMap.create_direct_map strptime_padded "u" "2025-05-07"
      Scenario.two_locations Scenario.two_statuses
    = Some (DirectMap.map_filename "u" "2025-05-07", m).
Proof.
  apply (direct_map_returns_on_parseable_rows strptime_padded "u" "2025-05-07"
           Scenario.two_locations Scenario.two_statuses);
    vm_compute; reflexivity.
Defined.

(** ** Successive location updates *)

Section UpdatesFacts.

Import Classifier Updates.
Local Open Scope R_scope.

Variable rounding : R -> R -> R -> R -> R.

Lemma haversine_same_point (lat lon : R) : haversine_distance lat lon lat lon = 0.
Proof.
  unfold haversine_distance.
  replace ((radians lat - radians lat) / 2) with 0 by lra.
  replace ((radians lon - radians lon) / 2) with 0 by lra.
  rewrite sin_0.
  replace (0 ^ 2 + cos (radians lat) * cos (radians lat) * 0 ^ 2) with 0
    by ring.
  replace (1 - 0) with 1 by lra.
  rewrite sqrt_0, sqrt_1, atan2_0_1. ring.
Qed.

Lemma computed_same_point (lat lon : R) :
  computed_distance no_rounding lat lon lat lon = Some 0.
Proof.
  rewrite (@computed_distance_exact no_rounding lat lon lat lon eq_refl).
  rewrite haversine_same_point. reflexivity.
Qed.

Lemma truthy_float_nonzero (x : R) : x <> 0 -> truthy_float x = true.
Proof.
  intros H. unfold truthy_float. destruct (Req_dec_T x 0); [contradiction|].
  reflexivity.
Qed.

(** What a call leaves as predecessor is the sample itself, stamped by
    [isoformat]. *)
Lemma step_remembers (entry : option user_data) (s : sample) (o : outcome) :
  step rounding entry s = Some o ->
  exists st sp,
    last_loc (data o)
    = Some (mklast (s_lat s) (s_lon s) (IsoTime (s_time s)) st sp).
Proof.
  unfold step, handle_location. intros H.
  destruct (classify _ _ _ _ _ _) as [o'|]; [|discriminate].
  injection H as <-. simpl. eauto.
Qed.

(** With a stamp that parses, the comparison returns exactly when the
    distance computation does. *)
Lemma compare_with_returns lat lon now send_ok ud prev :
  (exists t, timestamp prev = IsoTime t) ->
  compare_with rounding lat lon now send_ok ud prev <> None
  <-> computed_distance rounding (latitude prev) (longitude prev) lat lon
      <> None.
Proof.
  intros [t Ht]. unfold compare_with.
  destruct (computed_distance rounding (latitude prev) (longitude prev)
              lat lon) as [distance|]; cbn [bind]; [|tauto].
  split; [discriminate|]. intros _. rewrite Ht. simpl.
  destruct (Rlt_dec _ 10).
  - destruct (Rlt_dec 300 _); [|discriminate].
    destruct (Rlt_dec 1800 _), (get_admin_notified ud), send_ok; simpl;
      discriminate.
  - rewrite speed_kmh_value. discriminate.
Qed.

(** A call on stored data raises exactly when the predecessor passes the
    guard and the distance from it cannot be computed. *)
Lemma step_returns_iff (ud : user_data) (prev : last_location) (s : sample) :
  last_loc ud = Some prev ->
  (exists t, timestamp prev = IsoTime t) ->
  step rounding (Some ud) s <> None
  <-> (latitude prev <> 0 -> longitude prev <> 0 ->
       computed_distance rounding (latitude prev) (longitude prev)
                         (s_lat s) (s_lon s) <> None).
Proof.
  intros Hl W.
  pose proof (compare_with_returns (s_lat s) (s_lon s) (s_time s)
                (s_send_ok s) ud prev W) as C.
  unfold step, handle_location, classify. rewrite Hl. unfold consulted.
  destruct W as [t Ht]. rewrite Ht. cbn [truthy_str]. rewrite andb_true_r.
  unfold truthy_float.
  destruct (Req_dec_T (latitude prev) 0) as [Z1|N1];
    [cbn [andb bind]; split; [intros _ X; contradiction|discriminate]|].
  destruct (Req_dec_T (longitude prev) 0) as [Z2|N2];
    [cbn [andb bind]; split; [intros _ _ X; contradiction|discriminate]|].
  cbn [andb].
  destruct (compare_with rounding (s_lat s) (s_lon s) (s_time s)
              (s_send_ok s) ud prev) as [o|]; cbn [bind].
  - split; [|discriminate]. intros _ _ _. apply (proj1 C). discriminate.
  - split; [intros X; exfalso; apply X; reflexivity|].
    intros X. exact (proj2 C (X N1 N2)).
Qed.

Lemma run_returns_iff (samples : list sample) (ud : user_data)
      (lat0 lon0 t0 : R) (st : string) (sp : R) :
  last_loc ud = Some (mklast lat0 lon0 (IsoTime t0) st sp) ->
  run rounding (Some ud) samples <> None
  <-> distances_return rounding lat0 lon0 samples.
Proof.
  revert ud lat0 lon0 t0 st sp;
    induction samples as [|s rest IH]; intros ud lat0 lon0 t0 st sp Hl.
  - simpl. split; [intros _; exact I|discriminate].
  - pose proof (step_returns_iff ud _ s Hl (ex_intro _ t0 eq_refl)) as S.
    cbn [latitude longitude] in S. cbn [run distances_return].
    destruct (step rounding (Some ud) s) as [o|] eqn:E; cbn [bind].
    + destruct (step_remembers (Some ud) s o E) as (st' & sp' & L).
      specialize (IH (data o) _ _ _ _ _ L).
      destruct (run rounding (Some (data o)) rest) as [r|]; cbn [bind].
      * split; [|discriminate]. intros _. split.
        -- apply (proj1 S). discriminate.
        -- apply (proj1 IH). discriminate.
      * split; [intros X; exfalso; apply X; reflexivity|].
        intros [_ X]. exact (proj2 IH X).
    + split; [intros X; exfalso; apply X; reflexivity|].
      intros [X _]. exfalso. apply (proj2 S X). reflexivity.
Qed.

Lemma run_outcomes (samples : list sample) (e0 : option user_data) :
  well_stamped e0 ->
  forall entry outs,
    run rounding e0 samples = Some (entry, outs) ->
    well_stamped entry /\ List.length outs = List.length samples.
Proof.
  revert e0; induction samples as [|s rest IH]; intros e0 W entry outs H;
    simpl in H.
  - injection H as <- <-. split; [exact W|reflexivity].
  - destruct (step rounding e0 s) as [o|] eqn:E; [|discriminate].
    cbn [bind] in H.
    destruct (run rounding (Some (data o)) rest) as [[e1 o1]|] eqn:R;
      [|discriminate].
    cbn [bind fst snd] in H. injection H as <- <-.
    assert (W' : well_stamped (Some (data o))).
    { destruct (step_remembers e0 s o E) as (st & sp & L).
      unfold well_stamped. rewrite L. simpl. eauto. }
    destruct (IH _ W' _ _ R) as [A B]. split; [exact A|simpl; lia].
Qed.

End UpdatesFacts.

(** X11.  On a subject without stored data the first location update
    always returns, and the updates that follow raise only in the
    distance computation: the run returns exactly when every sample
    whose predecessor passes the guard by its coordinates has a computed
    distance from it.  When the run returns there is one outcome for each
    sample.  (What [isoformat] writes is taken to be read back by
    [fromisoformat].) *)
Theorem location_updates_raise_only_in_distance
        (rounding : R -> R -> R -> R -> R)
        (first : Updates.sample) (rest : list Updates.sample) :
  (Updates.run rounding None (first :: rest) <> None
   <-> Updates.distances_return rounding (Updates.s_lat first)
                                (Updates.s_lon first) rest)
  /\ forall entry outs,
      Updates.run rounding None (first :: rest) = Some (entry, outs) ->
      List.length outs = S (List.length rest).
Proof.
  split.
  - cbn [Updates.run].
    change (Updates.step rounding None first)
      with (Some (Classifier.remember (Updates.s_lat first)
                    (Updates.s_lon first) (Updates.s_time first)
                    (Classifier.mkout Classifier.init_user_data
                                      "intermediate" false))).
    cbn [bind].
    pose proof (run_returns_iff rounding rest
                  (Classifier.data
                     (Classifier.remember (Updates.s_lat first)
                        (Updates.s_lon first) (Updates.s_time first)
                        (Classifier.mkout Classifier.init_user_data
                                          "intermediate" false)))
                  (Updates.s_lat first) (Updates.s_lon first)
                  (Updates.s_time first) "unknown" 0 eq_refl) as G.
    destruct (Updates.run rounding _ rest) as [r|]; cbn [bind].
    + split; [|discriminate]. intros _. apply (proj1 G). discriminate.
    + split; [intros X; exfalso; apply X; reflexivity|].
      intros X. exact (proj2 G X).
  - intros entry outs H.
    destruct (run_outcomes rounding (first :: rest) None I entry outs H)
      as [_ L].
    exact L.
Qed.

Section AlertFacts.

Import Classifier Updates.
Local Open Scope R_scope.

Variable rounding : R -> R -> R -> R -> R.

(** Case analysis of one call on the data of a subject. *)
Ltac classify_cases H :=
  unfold step, handle_location, classify, compare_with in H;
  repeat match type of H with
    | context [match last_loc ?u with _ => _ end] =>
        destruct (last_loc u) as [?prev|] eqn:?
    | context [if consulted ?p then _ else _] => destruct (consulted p) eqn:?
    | context [computed_distance ?r ?a ?b ?c ?d] =>
        destruct (computed_distance r a b c d) as [?distance|] eqn:?
    | context [fromisoformat ?x] => destruct (fromisoformat x) eqn:?
    | context [Rlt_dec ?a ?b] => destruct (Rlt_dec a b)
    | context [get_admin_notified ?u] => destruct (get_admin_notified u) eqn:?
    | context [if ?b then _ else _] => destruct b eqn:?
    | context [speed_kmh ?d ?t] => rewrite (speed_kmh_value d t) in H
    | _ => progress (cbn [bind andb negb] in H)
    end;
  cbn [andb negb] in *; try discriminate.

(** An alert goes out only from the branch of a long stay, to an
    administrator not yet notified, and is then recorded. *)
Lemma alert_only_when_due lat lon now send_ok entry o :
  handle_location rounding lat lon now send_ok entry = Some o ->
  alert_sent o = true ->
  send_ok = true
  /\ admin_notified (data o) = Some true
  /\ 1800 < stationary_duration (data o)
  /\ location_type o = "stationary"%string
  /\ exists ud, entry = Some ud /\ get_admin_notified ud = false.
Proof.
  intros H A. destruct entry as [ud|].
  - classify_cases H; injection H as <-; simpl in A; try discriminate A;
      simpl; repeat split; eauto; congruence.
  - simpl in H. injection H as <-. discriminate A.
Qed.

(** Once notified, the administrator gets no further alert, and stays
    notified as long as no sample is labelled [moving]. *)
Lemma notified_stays lat lon now send_ok ud o :
  handle_location rounding lat lon now send_ok (Some ud) = Some o ->
  get_admin_notified ud = true ->
  alert_sent o = false
  /\ (location_type o <> "moving"%string ->
      get_admin_notified (data o) = true).
Proof.
  intros H N.
  classify_cases H; injection H as <-; simpl; split; try reflexivity;
    try congruence; intros M; try exact N;
    try (exfalso; apply M; reflexivity);
    try (unfold get_admin_notified in *; simpl; assumption).
Qed.

Lemma alert_notifies lat lon now send_ok entry o :
  handle_location rounding lat lon now send_ok entry = Some o ->
  alert_sent o = true -> get_admin_notified (data o) = true.
Proof.
  intros H A.
  destruct (alert_only_when_due lat lon now send_ok entry o H A)
    as (_ & E & _).
  unfold get_admin_notified. rewrite E. reflexivity.
Qed.

Lemma run_notified (samples : list sample) (ud : user_data) entry outs :
  run rounding (Some ud) samples = Some (entry, outs) ->
  get_admin_notified ud = true ->
  Forall (fun o => location_type o <> "moving"%string) outs ->
  alerts outs = 0%nat.
Proof.
  revert ud entry outs; induction samples as [|s rest IH];
    intros ud entry outs H N F; simpl in H.
  - injection H as <- <-. reflexivity.
  - destruct (step rounding (Some ud) s) as [o|] eqn:E; [|discriminate].
    cbn [bind] in H.
    destruct (run rounding (Some (data o)) rest) as [[e1 o1]|] eqn:R;
      [|discriminate].
    cbn [bind fst snd] in H. injection H as <- <-.
    inversion F as [|? ? Fo Fr]; subst.
    destruct (notified_stays _ _ _ _ _ _ E N) as [A K].
    unfold alerts. simpl. rewrite A.
    exact (IH _ _ _ R (K Fo) Fr).
Qed.

End AlertFacts.

(** X12.  Between two samples labelled [moving] the administrator is
    alerted at most once: in a run of calls none of which is labelled
    [moving], at most one call sends the alert. *)
Theorem one_alert_per_stay
        (rounding : R -> R -> R -> R -> R)
        (entry : option Classifier.user_data)
        (samples : list Updates.sample)
        (final : option Classifier.user_data)
        (outs : list Classifier.outcome) :
  Updates.run rounding entry samples = Some (final, outs) ->
  Forall (fun o => Classifier.location_type o <> "moving"%string) outs ->
  (Updates.alerts outs <= 1)%nat.
Proof.
  revert entry final outs; induction samples as [|s rest IH];
    intros entry final outs H F; simpl in H.
  - injection H as <- <-. unfold Updates.alerts. simpl. lia.
  - destruct (Updates.step rounding entry s) as [o|] eqn:E; [|discriminate].
    cbn [bind] in H.
    destruct (Updates.run rounding (Some (Classifier.data o)) rest)
      as [[e1 o1]|] eqn:R; [|discriminate].
    cbn [bind fst snd] in H. injection H as <- <-.
    inversion F as [|? ? Fo Fr]; subst.
    unfold Updates.alerts. simpl.
    destruct (Classifier.alert_sent o) eqn:A.
    + pose proof (alert_notifies rounding _ _ _ _ _ _ E A) as N.
      pose proof (run_notified rounding rest _ _ _ R N Fr) as Z.
      unfold Updates.alerts in Z. simpl. lia.
    + exact (IH _ _ _ R Fr).
Qed.

(** X13.  An alert reaches the administrator only from a sample labelled
    [stationary] whose accumulated stay exceeds 1800 s, when no alert had
    been recorded before and the message got through; the alert is then
    recorded in the subject's data. *)
Theorem alert_sent_only_when_due
        (rounding : R -> R -> R -> R -> R)
        (lat lon now : R) (send_ok : bool)
        (entry : option Classifier.user_data) (o : Classifier.outcome) :
  Classifier.handle_location rounding lat lon now send_ok entry = Some o ->
  Classifier.alert_sent o = true ->
  send_ok = true
  /\ Classifier.admin_notified (Classifier.data o) = Some true
  /\ (1800 < Classifier.stationary_duration (Classifier.data o))%R
  /\ Classifier.location_type o = "stationary"%string
  /\ exists ud, entry = Some ud /\ Classifier.get_admin_notified ud = false.
Proof.
  intros H A.
  destruct (alert_only_when_due rounding lat lon now send_ok entry o H A)
    as (H1 & H2 & H3 & H4 & H5).
  repeat split; assumption.
Qed.

Section StayFacts.

Import Classifier Updates.
Local Open Scope R_scope.

Variable rounding : R -> R -> R -> R -> R.

(** One call for a sample less than 10 m from a consulted predecessor. *)
Lemma step_still (ud : user_data) (prev : last_location) (t0 : R) (s : sample)
      (distance : R) :
  last_loc ud = Some prev ->
  timestamp prev = IsoTime t0 ->
  latitude prev <> 0 -> longitude prev <> 0 ->
  computed_distance rounding (latitude prev) (longitude prev)
                    (s_lat s) (s_lon s) = Some distance ->
  distance < 10 ->
  exists o,
    step rounding (Some ud) s = Some o
    /\ stationary_duration (data o) = stationary_duration ud + (s_time s - t0)
    /\ location_type o
       = (if Rlt_dec 300 (stationary_duration (data o))
          then "stationary" else "intermediate")%string
    /\ (alert_sent o = true ->
        s_send_ok s = true /\ get_admin_notified ud = false
        /\ 1800 < stationary_duration (data o))
    /\ (s_send_ok s = true -> get_admin_notified ud = false ->
        1800 < stationary_duration ud + (s_time s - t0) ->
        alert_sent o = true)
    /\ exists st sp,
        last_loc (data o)
        = Some (mklast (s_lat s) (s_lon s) (IsoTime (s_time s)) st sp).
Proof.
  intros Hl Ht Hlat Hlon Hc Hd.
  unfold step, handle_location, classify. rewrite Hl.
  unfold consulted.
  rewrite (truthy_float_nonzero _ Hlat), (truthy_float_nonzero _ Hlon), Ht.
  cbn [truthy_str andb]. unfold compare_with. rewrite Hc, Ht.
  cbn [fromisoformat bind].
  destruct (Rlt_dec distance 10) as [_|N]; [|contradiction].
  destruct (Rlt_dec 300 (stationary_duration ud + (s_time s - t0))) as [L|L].
  - destruct (Rlt_dec 1800 (stationary_duration ud + (s_time s - t0)))
      as [M|M], (get_admin_notified ud) eqn:G, (s_send_ok s) eqn:K;
      cbn [andb negb bind]; eexists; (split; [reflexivity|]); simpl;
      (destruct (Rlt_dec 300 _); [|contradiction]);
      repeat split; eauto; try discriminate; try congruence;
      intros; try contradiction; try discriminate.
  - cbn [bind]. eexists. split; [reflexivity|]. simpl.
    destruct (Rlt_dec 300 _); [contradiction|].
    repeat split; eauto; try discriminate.
    intros _ _ M. exfalso. lra.
Qed.

Lemma last_time_cons (t0 : R) (s : sample) (rest : list sample) :
  last_time t0 (s :: rest) = last_time (s_time s) rest.
Proof.
  unfold last_time. simpl. destruct rest as [|s' rest]; [reflexivity|].
  simpl. generalize (s_time s') (map s_time rest). intros a l.
  revert a. induction l as [|b l IH]; intros a; [reflexivity|].
  simpl. destruct l; [reflexivity|]. apply (IH b).
Qed.

End StayFacts.

(** A first sample, then two more at the same place after 2000 s and
    4000 s: the second call alerts the administrator, the third, with a
    stay of 4000 s, is held back. *)
Lemma one_alert_per_stay_witness :
  let s0 := Updates.mksample 55.7558 37.6173 0 true in
  let s1 := Updates.mksample 55.7558 37.6173 2000 true in
  let s2 := Updates.mksample 55.7558 37.6173 4000 true in
  exists final o0 o1 o2,
    Updates.run no_rounding None [s0; s1; s2] = Some (final, [o0; o1; o2])
    /\ Classifier.alert_sent o1 = true
    /\ (1800 < Classifier.stationary_duration (Classifier.data o2))%R
    /\ Classifier.alert_sent o2 = false
    /\ (Updates.alerts [o0; o1; o2] <= 1)%nat.
Proof.
  intros s0 s1 s2.
  pose (prev0 := Classifier.mklast 55.7558 37.6173 (Classifier.IsoTime 0)
                                   "unknown" 0).
  pose (ud0 := Classifier.mkuser "unknown" 0 (Some prev0) None None).
  pose (o0 := Classifier.mkout ud0 "intermediate" false).
  assert (E0 : Updates.step no_rounding None s0 = Some o0) by reflexivity.
  destruct (step_still no_rounding ud0 prev0 0 s1 0 eq_refl eq_refl)
    as (o1 & E1 & D1 & T1 & _ & A1 & st1 & sp1 & L1);
    [simpl; lra|simpl; lra|apply computed_same_point|lra|].
  assert (S1 : Classifier.alert_sent o1 = true).
  { apply A1; [reflexivity|reflexivity|]. simpl. lra. }
  destruct (step_still no_rounding (Classifier.data o1) _ 2000 s2 0 L1 eq_refl)
    as (o2 & E2 & D2 & T2 & _ & _ & _);
    [simpl; lra|simpl; lra|apply computed_same_point|lra|].
  assert (N1 : Classifier.get_admin_notified (Classifier.data o1) = true)
    by exact (alert_notifies no_rounding 55.7558 37.6173 2000 true
                (Some ud0) o1 E1 S1).
  destruct (notified_stays no_rounding 55.7558 37.6173 4000 true
              (Classifier.data o1) o2 E2 N1) as [S2 _].
  assert (H : Updates.run no_rounding None [s0; s1; s2]
              = Some (Some (Classifier.data o2), [o0; o1; o2])).
  { cbn [Updates.run]. rewrite E0. cbn [bind].
    change (Classifier.data o0) with ud0. rewrite E1. cbn [bind].
    rewrite E2. reflexivity. }
  exists (Some (Classifier.data o2)), o0, o1, o2.
  split; [exact H|]. split; [exact S1|].
  split; [rewrite D2, D1; simpl; lra|]. split; [exact S2|].
  apply (one_alert_per_stay no_rounding None [s0; s1; s2]
           (Some (Classifier.data o2)) [o0; o1; o2] H).
  constructor; [simpl; discriminate|].
  constructor;
    [rewrite T1;
     destruct (Rlt_dec 300 (Classifier.stationary_duration
                              (Classifier.data o1))); discriminate|].
  constructor;
    [rewrite T2;
     destruct (Rlt_dec 300 (Classifier.stationary_duration
                              (Classifier.data o2))); discriminate
    |constructor].
Defined.

(** A stay of 1850 s at one place, the administrator not yet notified. *)
Lemma alert_sent_only_when_due_witness :
  let prev := Classifier.mklast 55.7558 37.6173 (Classifier.IsoTime 0)
                                "stationary" 0 in
  let ud := Classifier.mkuser "stationary" 1790 (Some prev) None None in
  exists o,
    Classifier.handle_location no_rounding 55.7558 37.6173 60 true (Some ud)
    = Some o
    /\ Classifier.alert_sent o = true
    /\ true = true
    /\ Classifier.admin_notified (Classifier.data o) = Some true
    /\ (1800 < Classifier.stationary_duration (Classifier.data o))%R
    /\ Classifier.location_type o = "stationary"%string
    /\ exists ud', Some ud = Some ud'
                   /\ Classifier.get_admin_notified ud' = false.
Proof.
  intros prev ud.
  destruct (step_still no_rounding ud prev 0
              (Updates.mksample 55.7558 37.6173 60 true) 0
              eq_refl eq_refl)
    as (o & E & D & _ & _ & A & _).
  - simpl. lra.
  - simpl. lra.
  - apply computed_same_point.
  - lra.
  - assert (S : Classifier.alert_sent o = true).
    { apply A; [reflexivity|reflexivity|]. simpl. lra. }
    exists o. split; [exact E|]. split; [exact S|].
    exact (alert_sent_only_when_due no_rounding 55.7558 37.6173 60 true
             (Some ud) o E S).
Defined.

(** X14.  While the subject stays put (each sample at a computed distance
    of less than 10 m from the one before, none on the equator or the
    prime meridian), no call raises, the stationary accumulator grows by
    exactly the time elapsed since the stored predecessor, and a sample
    is labelled [stationary] exactly when the accumulator it leaves
    exceeds 300 s, [intermediate] otherwise. *)
Theorem stay_accumulates_elapsed_time
        (rounding : R -> R -> R -> R -> R)
        (samples : list Updates.sample)
        (ud : Classifier.user_data) (prev : Classifier.last_location)
        (t0 : R) :
  Classifier.last_loc ud = Some prev ->
  Classifier.timestamp prev = Classifier.IsoTime t0 ->
  Updates.still rounding (Classifier.latitude prev)
                (Classifier.longitude prev) samples ->
  exists ud' outs,
    Updates.run rounding (Some ud) samples = Some (Some ud', outs)
    /\ Classifier.stationary_duration ud'
       = (Classifier.stationary_duration ud
          + (Updates.last_time t0 samples - t0))%R
    /\ Forall (fun o =>
                 Classifier.location_type o
                 = (if Rlt_dec 300 (Classifier.stationary_duration
                                      (Classifier.data o))
                    then "stationary" else "intermediate")%string) outs.
Proof.
  revert ud prev t0; induction samples as [|s rest IH];
    intros ud prev t0 Hl Ht S.
  - exists ud, []. split; [reflexivity|].
    split; [unfold Updates.last_time; simpl; lra|constructor].
  - destruct S as (Hlat & Hlon & (distance & Hc & Hd) & S).
    destruct (step_still rounding ud prev t0 s distance Hl Ht Hlat Hlon Hc Hd)
      as (o & E & D & T & _ & _ & st & sp & L).
    destruct (IH (Classifier.data o) _ (Updates.s_time s) L eq_refl S)
      as (ud' & outs & R & D' & F).
    exists ud', (o :: outs). simpl. rewrite E. cbn [bind]. rewrite R.
    cbn [bind fst snd]. split; [reflexivity|]. split.
    + rewrite D', D, last_time_cons. lra.
    + constructor; assumption.
Qed.

(** Two samples at one place, five and ten minutes after the first. *)
Lemma stay_accumulates_elapsed_time_witness :
  let prev := Classifier.mklast 55.7558 37.6173 (Classifier.IsoTime 0)
                                "unknown" 0 in
  let ud := Classifier.mkuser "unknown" 0 (Some prev) None None in
  let samples := [Updates.mksample 55.7558 37.6173 300 true;
                  Updates.mksample 55.7558 37.6173 600 true] in
  exists ud' outs,
    Updates.run no_rounding (Some ud) samples = Some (Some ud', outs)
    /\ Classifier.stationary_duration ud'
       = (Classifier.stationary_duration ud
          + (Updates.last_time 0 samples - 0))%R
    /\ Forall (fun o =>
                 Classifier.location_type o
                 = (if Rlt_dec 300 (Classifier.stationary_duration
                                      (Classifier.data o))
                    then "stationary" else "intermediate")%string) outs.
Proof.
  intros prev ud samples.
  apply (stay_accumulates_elapsed_time no_rounding samples ud prev 0
           eq_refl eq_refl).
  simpl. rewrite computed_same_point.
  repeat split; try lra; exists 0%R; (split; [reflexivity|lra]).
Defined.

(** ** Sessions and statuses *)

Section TrackingFacts.

Import Tracking.

Lemma status_map_value :
  status_map
  = [("🏢 В офисе", "office"); ("🏥 На больничном", "sick");
     ("🏖 В отпуске", "vacation"); ("🌃 В ночь", "to_night");
     ("🌙 С ночи", "from_night"); ("🏠 Домой", "home")]%string.
Proof. reflexivity. Qed.

(** The key found for a text is the key of the button with that text. *)
Lemma status_key_of_button (text key : string) :
  dict_get status_map text = Some key <-> In (key, text) STATUS_OPTIONS.
Proof.
  rewrite status_map_value. unfold STATUS_OPTIONS. split.
  - cbn [dict_get In]. intros H.
    repeat match type of H with
      | context [String.eqb ?a text] =>
          let E := fresh "E" in
          destruct (String.eqb a text) eqn:E;
          [apply String.eqb_eq in E; subst text; injection H as <-;
           tauto|]
      end.
    discriminate.
  - cbn [In]. intros H.
    repeat (destruct H as [H|H]; [injection H as <- <-; reflexivity|]).
    contradiction.
Qed.

End TrackingFacts.

(** X15.  Each message text of a status button is turned into the key of
    that button and into no other, a text that is no button is not a
    status ([handle_status_message] then changes nothing and saves
    nothing), and the branches for [night_shift_start] and
    [night_shift_end] are never taken: [to_night] and [from_night] are
    merely confirmed.  Only [home] touches the location session. *)
Theorem status_dispatch
        (message_location : option (R * R)) (mark_ok : string -> bool)
        (active_sessions : option (list string)) (in_night_shift : bool)
        (message_text : string) (c : Tracking.chat_entries) :
  let r := Tracking.handle_status_message message_location mark_ok
             active_sessions in_night_shift message_text c in
  let taken := snd (fst r) in
  taken <> Tracking.NightShiftStart
  /\ taken <> Tracking.NightShiftEnd
  /\ (taken = Tracking.NotAStatus ->
      fst (fst r) = c /\ snd r = []
      /\ forall key, ~ In (key, message_text) Tracking.STATUS_OPTIONS)
  /\ (taken = Tracking.Confirmed ->
      fst (fst r) = c
      /\ exists key,
          In (key, message_text) Tracking.STATUS_OPTIONS
          /\ key <> "home"%string
          /\ snd r = [Tracking.SaveStatus key; Tracking.UpdateMorningCheck])
  /\ (taken = Tracking.Home <-> message_text = "🏠 Домой"%string).
Proof.
  unfold Tracking.handle_status_message.
  destruct (String.eqb message_text "📝 Отпроситься") eqn:E0.
  - apply String.eqb_eq in E0. subst message_text. cbv zeta. simpl.
    split; [discriminate|]. split; [discriminate|].
    split; [|split; [intros X; discriminate X|split; intros X; discriminate X]].
    intros _. split; [reflexivity|]. split; [reflexivity|].
    intros key K.
    repeat (destruct K as [K|K]; [discriminate K|]). exact K.
  - destruct (Tracking.dict_get Tracking.status_map message_text)
      as [key|] eqn:G.
    + pose proof (proj1 (status_key_of_button message_text key) G) as K.
      unfold Tracking.STATUS_OPTIONS in K. cbn [In] in K.
      destruct K as [K|[K|[K|[K|[K|[K|K]]]]]]; [..|contradiction];
        injection K as <- <-; cbv zeta; simpl;
        (split; [discriminate|]); (split; [discriminate|]);
        (split; [intros X; discriminate X|]).
      1-5: split;
        [intros _; split; [reflexivity|];
         eexists; split;
         [unfold Tracking.STATUS_OPTIONS; cbn [In]; tauto|];
         split; [discriminate|reflexivity]
        |split; intros X; discriminate X].
      split; [intros X; discriminate X|]. split; reflexivity.
    + cbv zeta. simpl.
      split; [discriminate|]. split; [discriminate|].
      split; [|split; [intros X; discriminate X|split; intros X]].
      * intros _. split; [reflexivity|]. split; [reflexivity|].
        intros key H.
        apply (proj2 (status_key_of_button message_text key)) in H.
        congruence.
      * discriminate X.
      * subst message_text. rewrite status_map_value in G.
        cbn [Tracking.dict_get] in G. discriminate G.
Qed.

(** X16.  After [home] has been received while a location session was
    tracked and the session could be marked as ended, the session is
    forgotten but the movement data of the subject is kept; the next
    location update is then saved with the type [start] and without a
    session id, whatever the movement classifier says of it, and the id
    that [save_location] returns for it, a fresh one or that of a session
    of the same day, is the one tracked from there on. *)
Theorem home_then_location_saved_as_start
        (c : Tracking.chat_entries) (sid : string)
        (message_location : option (R * R)) (mark_ok : string -> bool)
        (active_sessions : option (list string)) (in_night_shift : bool)
        (rounding : R -> R -> R -> R -> R)
        (lat lon now : R) (send_ok : bool) (saved_session : option string)
        (c2 : Tracking.chat_entries) (o : Classifier.outcome)
        (effects : list Tracking.effect) :
  Tracking.tracking c = true ->
  Tracking.session c = Some sid ->
  sid <> ""%string ->
  mark_ok sid = true ->
  let r := Tracking.handle_status_message message_location mark_ok
             active_sessions in_night_shift "🏠 Домой" c in
  let c1 := fst (fst r) in
  Tracking.handle_location rounding lat lon now send_ok saved_session c1
  = Some (c2, o, effects) ->
  In (Tracking.MarkSessionEnded sid message_location) (snd r)
  /\ Tracking.tracking c1 = false
  /\ Tracking.session c1 = None
  /\ Tracking.user_entry c1 = Tracking.user_entry c
  /\ effects = [Tracking.SaveLocation None "start" lat lon;
                Tracking.UpdateMorningCheck]
  /\ Tracking.tracking c2 = true
  /\ Tracking.session c2 = saved_session.
Proof.
  intros T S N M r c1.
  assert (E : r = (Tracking.mkchat (Tracking.user_entry c) (Some false)
                                   (Some None),
                   Tracking.Home,
                   Tracking.SaveStatus "home" :: Tracking.UpdateMorningCheck
                   :: [Tracking.MarkSessionEnded sid message_location]
                   ++ match active_sessions with
                      | Some sessions => Tracking.end_all mark_ok sessions
                      | None => []
                      end
                   ++ [Tracking.NotifyAdmin])).
  { subst r. unfold Tracking.handle_status_message.
    change (String.eqb "🏠 Домой" "📝 Отпроситься") with false.
    change (Tracking.dict_get Tracking.status_map "🏠 Домой")
      with (Some "home"%string).
    change (String.eqb "home" "home") with true. cbv iota zeta.
    rewrite T, S. unfold Tracking.truthy_session.
    destruct (String.eqb sid "") eqn:Z;
      [apply String.eqb_eq in Z; contradiction|].
    cbn [negb andb]. rewrite M. reflexivity. }
  subst c1. rewrite E. cbn [fst snd]. intros H.
  unfold Tracking.handle_location in H.
  cbn [Tracking.user_entry Tracking.tracking Tracking.location_tracking] in H.
  destruct (Classifier.handle_location rounding lat lon now send_ok
              (Tracking.user_entry c)) as [o'|]; [|discriminate H].
  cbn [bind negb] in H. injection H as <- <- <-.
  split; [right; right; left; reflexivity|].
  repeat split.
Qed.

(** A tracked session and a subject who has not moved yet; for the
    update after [home] the database hands back the id of the session
    just ended, as it does while that session has a row of the day that
    is not an [end]. *)
Lemma home_then_location_saved_as_start_witness :
  let c := Tracking.mkchat None (Some true) (Some (Some "session_7_1"%string)) in
  let r := Tracking.handle_status_message None (fun _ => true) (Some [])
             false "🏠 Домой" c in
  let c1 := fst (fst r) in
  exists c2 o effects,
    Tracking.handle_location no_rounding 55.7558 37.6173 60 true
                             (Some "session_7_1"%string) c1
    = Some (c2, o, effects)
    /\ In (Tracking.MarkSessionEnded "session_7_1" None) (snd r)
    /\ Tracking.tracking c1 = false
    /\ Tracking.session c1 = None
    /\ Tracking.user_entry c1 = Tracking.user_entry c
    /\ effects = [Tracking.SaveLocation None "start" 55.7558 37.6173;
                  Tracking.UpdateMorningCheck]
    /\ Tracking.tracking c2 = true
    /\ Tracking.session c2 = Some "session_7_1"%string.
Proof.
  intros c r c1. eexists. eexists. eexists. split; [reflexivity|].
  eapply (home_then_location_saved_as_start c "session_7_1" None
            (fun _ => true) (Some []) false no_rounding 55.7558 37.6173 60
            true (Some "session_7_1"%string)).
  - reflexivity.
  - reflexivity.
  - discriminate.
  - reflexivity.
  - reflexivity.
Defined.

(** ** Administrators *)

Section AdminFacts.

Import Admin.

Variable int_of_entry : string -> option Z.

Lemma parse_all_bad (entries : list string) (bad : string) :
  In bad entries -> int_of_entry bad = None ->
  parse_all int_of_entry entries = None.
Proof.
  induction entries as [|id rest IH]; simpl; intros H B; [contradiction|].
  destruct H as [->|H].
  - rewrite B. reflexivity.
  - destruct (int_of_entry id); [|reflexivity]. cbn [bind].
    rewrite (IH H B). reflexivity.
Qed.

End AdminFacts.

(** X17.  One entry of [ADMIN_IDS] that is no number (an empty entry
    after a trailing comma, for instance) switches the whole list off:
    the primary administrator is then the only administrator. *)
Theorem bad_admin_entry_disables_list
        (ADMIN_ID : Z) (ADMIN_IDS : string)
        (int_of_entry : string -> option Z) (bad : string) (user_id : Z) :
  In bad (Text.split "," ADMIN_IDS) ->
  int_of_entry bad = None ->
  Admin.is_admin ADMIN_ID ADMIN_IDS int_of_entry user_id
  = Z.eqb user_id ADMIN_ID.
Proof.
  intros H B. unfold Admin.is_admin.
  destruct (Z.eqb user_id ADMIN_ID); [reflexivity|].
  rewrite (parse_all_bad int_of_entry _ bad H B).
  destruct (negb (String.eqb ADMIN_IDS "")); reflexivity.
Qed.

(** The list [123,] ends with an empty entry: 123 is no administrator. *)
Lemma bad_admin_entry_disables_list_witness :
  let int_of_entry :=
    fun s => option_map Z.of_N (Text.int_of_digits s) in
  Admin.is_admin 502488869 "123," int_of_entry 123 = Z.eqb 123 502488869.
Proof.
  intros int_of_entry.
  apply (bad_admin_entry_disables_list 502488869 "123," int_of_entry
           EmptyString 123).
  - simpl. right; left; reflexivity.
  - reflexivity.
Defined.

(** ** Movement status of a drawn point *)

(** X18.  A drawn point is [fast_moving] only if it was stored as [moving]
    and its speed exceeds 50 km/h; a point stored as [start], [end] or
    [stationary] keeps that status whatever its speed. *)
Theorem fast_moving_only_for_moving (loc_type : string) (speed : R) :
  (RouteRender.movement_status_of loc_type speed = "fast_moving"%string
   <-> loc_type = "moving"%string /\ (50 < speed)%R)
  /\ (In loc_type ["start"; "end"; "stationary"]%string ->
      RouteRender.movement_status_of loc_type speed = loc_type).
Proof.
  unfold RouteRender.movement_status_of. split.
  - destruct (String.eqb loc_type "start") eqn:E1;
      [split; [discriminate|];
       apply String.eqb_eq in E1; subst; intros [X _]; discriminate X|].
    destruct (String.eqb loc_type "end") eqn:E2;
      [split; [discriminate|];
       apply String.eqb_eq in E2; subst; intros [X _]; discriminate X|].
    destruct (String.eqb loc_type "stationary") eqn:E3;
      [split; [discriminate|];
       apply String.eqb_eq in E3; subst; intros [X _]; discriminate X|].
    destruct (String.eqb loc_type "moving") eqn:E4.
    + apply String.eqb_eq in E4. subst.
      destruct (Rlt_dec 50 speed); split; try discriminate; auto.
      intros [_ X]. contradiction.
    + apply String.eqb_neq in E4. split; [discriminate|].
      intros [X _]. contradiction.
  - intros [<-|[<-|[<-|[]]]]; reflexivity.
Qed.

(** ** Selecting a user *)

Section CallbackFacts.




End CallbackFacts.


(** ** The tally of time-off requests *)

Section StatsFacts.

Import Stats.
Local Open Scope Z_scope.

Lemma tally_total (results : list (string * Z)) (st : stats) :
  total (fold_left count_row results st) = total st + sum_counts results.
Proof.
  revert st; induction results as [|[status count] rest IH]; intros st.
  - unfold sum_counts. simpl. lia.
  - cbn [fold_left]. rewrite IH. unfold sum_counts. cbn [map fold_right snd].
    unfold count_row.
    destruct (String.eqb status "approved"), (String.eqb status "rejected"),
      (String.eqb status "pending"); simpl; lia.
Qed.

(** A status without a row keeps the count it has. *)
Lemma tally_untouched (results : list (string * Z)) (st : stats) :
  (~ In "approved"%string (map fst results) ->
   approved (fold_left count_row results st) = approved st)
  /\ (~ In "rejected"%string (map fst results) ->
      rejected (fold_left count_row results st) = rejected st)
  /\ (~ In "pending"%string (map fst results) ->
      pending (fold_left count_row results st) = pending st).
Proof.
  revert st; induction results as [|[status count] rest IH]; intros st;
    [repeat split; reflexivity|].
  cbn [fold_left map fst In].
  destruct (IH (count_row st (status, count))) as (A & B & C).
  repeat split; intros H.
  - rewrite A by tauto. unfold count_row.
    destruct (String.eqb status "approved") eqn:E;
      [apply String.eqb_eq in E; tauto|].
    destruct (String.eqb status "rejected"), (String.eqb status "pending");
      reflexivity.
  - rewrite B by tauto. unfold count_row.
    destruct (String.eqb status "rejected") eqn:E;
      [apply String.eqb_eq in E; tauto|].
    destruct (String.eqb status "approved"), (String.eqb status "pending");
      reflexivity.
  - rewrite C by tauto. unfold count_row.
    destruct (String.eqb status "pending") eqn:E;
      [apply String.eqb_eq in E; tauto|].
    destruct (String.eqb status "approved"), (String.eqb status "rejected");
      reflexivity.
Qed.

Lemma tally_counts (results : list (string * Z)) (st : stats) :
  NoDup (map fst results) ->
  approved (fold_left count_row results st)
  = match find (fun row => String.eqb (fst row) "approved") results with
    | Some row => snd row
    | None => approved st
    end
  /\ rejected (fold_left count_row results st)
     = match find (fun row => String.eqb (fst row) "rejected") results with
       | Some row => snd row
       | None => rejected st
       end
  /\ pending (fold_left count_row results st)
     = match find (fun row => String.eqb (fst row) "pending") results with
       | Some row => snd row
       | None => pending st
       end.
Proof.
  revert st; induction results as [|[status count] rest IH]; intros st D;
    [repeat split; reflexivity|].
  cbn [map fst] in D. inversion D as [|? ? Hn Hd]; subst.
  cbn [fold_left find fst snd].
  destruct (IH (count_row st (status, count)) Hd) as (A & B & C).
  destruct (tally_untouched rest (count_row st (status, count)))
    as (A' & B' & C').
  repeat split.
  - destruct (String.eqb status "approved") eqn:E.
    + apply String.eqb_eq in E. subst status. rewrite A' by exact Hn.
      reflexivity.
    + rewrite A. unfold count_row. rewrite E.
      destruct (String.eqb status "rejected"), (String.eqb status "pending");
        reflexivity.
  - destruct (String.eqb status "rejected") eqn:E.
    + apply String.eqb_eq in E. subst status. rewrite B' by exact Hn.
      reflexivity.
    + rewrite B. unfold count_row. rewrite E.
      destruct (String.eqb status "approved"), (String.eqb status "pending");
        reflexivity.
  - destruct (String.eqb status "pending") eqn:E.
    + apply String.eqb_eq in E. subst status. rewrite C' by exact Hn.
      reflexivity.
    + rewrite C. unfold count_row. rewrite E.
      destruct (String.eqb status "approved"), (String.eqb status "rejected");
        reflexivity.
Qed.

End StatsFacts.

(** X20.  For the rows of a [GROUP BY status] query (no status twice),
    [get_timeoff_stats_for_user] reports under [total] the sum of all
    counts, whatever the statuses are, and under [approved], [rejected]
    and [pending] the count of the row of that status, 0 when there is
    no such row. *)
Theorem timeoff_tally (results : list (string * Z)) :
  NoDup (map fst results) ->
  Stats.total (Stats.tally results) = Stats.sum_counts results
  /\ Stats.approved (Stats.tally results) = Stats.count_of "approved" results
  /\ Stats.rejected (Stats.tally results) = Stats.count_of "rejected" results
  /\ Stats.pending (Stats.tally results) = Stats.count_of "pending" results.
Proof.
  intros D. unfold Stats.tally, Stats.count_of.
  destruct (tally_counts results (Stats.mkstats 0 0 0 0) D) as (A & B & C).
  split; [rewrite tally_total; simpl; lia|].
  repeat split; assumption.
Qed.

Lemma timeoff_tally_witness :
  let results := [("approved", 2); ("cancelled", 1); ("pending", 3)]%string%Z in
  Stats.total (Stats.tally results) = Stats.sum_counts results
  /\ Stats.approved (Stats.tally results) = Stats.count_of "approved" results
  /\ Stats.rejected (Stats.tally results) = Stats.count_of "rejected" results
  /\ Stats.pending (Stats.tally results) = Stats.count_of "pending" results.
Proof.
  intros results. apply (timeoff_tally results).
  repeat constructor; simpl; intuition discriminate.
Defined.

(** ** The rows of the report *)

Section SortOn.

Variables (A K : Type).
Variable lt : K -> K -> option bool.
Variable key : A -> K.
Variable P : A -> Prop.
Hypothesis comparable : forall x y, P x -> P y -> lt (key y) (key x) <> None.

Lemma insert_returns_on (x : A) (l : list A) :
  P x -> Forall P l -> insert lt key x l <> None.
Proof.
  intros Hx. induction 1 as [|y l Hy _ IH]; simpl; [discriminate|].
  pose proof (comparable x y Hx Hy) as C.
  destruct (lt (key y) (key x)) as [[|]|]; simpl; [|discriminate|congruence].
  destruct (insert lt key x l); simpl; [discriminate|exact IH].
Qed.

Lemma sort_returns_on (l : list A) : Forall P l -> sort lt key l <> None.
Proof.
  induction 1 as [|x l Hx Hl IH]; simpl; [discriminate|].
  destruct (sort lt key l) as [s|] eqn:S; simpl; [|exact IH].
  apply insert_returns_on; [exact Hx|].
  exact (Permutation_Forall (@sort_perm _ _ _ _ _ _ S) Hl).
Qed.

End SortOn.

Section ReportFacts.

Import Report.

Variable strptime : string -> option datetime.
Variable strptime_f : string -> option datetime.
Variable float_of_text : string -> option R.

Lemma stamp_lt_asym (a b : stamp) :
  stamp_lt a b = Some true -> stamp_lt b a = Some false.
Proof.
  destruct a, b; simpl; try discriminate; intros H; injection H as H;
    f_equal; [apply dt_ltb_asym; exact H|].
  apply Z.ltb_lt in H. apply Z.ltb_ge. lia.
Qed.

Lemma stamp_le_trans (a b c : stamp) :
  stamp_lt b a = Some false -> stamp_lt c b = Some false ->
  stamp_lt c a = Some false.
Proof.
  destruct a, b, c; simpl; try discriminate; intros H1 H2;
    injection H1 as H1; injection H2 as H2; f_equal;
    [eapply dt_le_trans; eassumption|].
  apply Z.ltb_ge in H1, H2. apply Z.ltb_ge. lia.
Qed.

Lemma add_status_rows (sts : list (Fetch.sql_value * pytime))
      (data : list row) :
  Forall naive data ->
  Forall naive (fold_left (add_status strptime strptime_f) sts data)
  /\ map content (fold_left (add_status strptime strptime_f) sts data)
     = map content data
       ++ flat_map (status_content strptime strptime_f) sts.
Proof.
  revert data; induction sts as [|e sts IH]; intros data F.
  - simpl. rewrite app_nil_r. split; [exact F|reflexivity].
  - cbn [fold_left flat_map]. unfold add_status at 2 4.
    unfold status_content at 1.
    destruct (parse_timestamp strptime strptime_f (snd e)) as [d|].
    + match goal with
      | |- context [fold_left _ sts ?l] => destruct (IH l) as [A B]
      end.
      { apply Forall_app. split; [exact F|].
        constructor; [exists d; reflexivity|constructor]. }
      split; [exact A|]. rewrite B, map_app, <- app_assoc. reflexivity.
    + exact (IH data F).
Qed.

Lemma add_location_rows (locs : list location) (data : list row) :
  Forall naive data ->
  Forall naive
    (fold_left (add_location strptime strptime_f float_of_text) locs data)
  /\ map content
       (fold_left (add_location strptime strptime_f float_of_text) locs data)
     = map content data
       ++ flat_map (location_content strptime strptime_f float_of_text) locs.
Proof.
  revert data; induction locs as [|e locs IH]; intros data F.
  - simpl. rewrite app_nil_r. split; [exact F|reflexivity].
  - cbn [fold_left flat_map]. unfold add_location at 2 4.
    unfold location_content at 1.
    destruct (coordinate float_of_text (lat e)) as [la|];
      [|exact (IH data F)].
    destruct (coordinate float_of_text (lon e)) as [lo|];
      [|exact (IH data F)].
    destruct (parse_timestamp strptime strptime_f (ts e)) as [d|];
      [|exact (IH data F)].
    match goal with
    | |- context [fold_left _ locs ?l] => destruct (IH l) as [A B]
    end.
    { apply Forall_app. split; [exact F|].
      constructor; [exists d; reflexivity|constructor]. }
    split; [exact A|]. rewrite B, map_app, <- app_assoc. reflexivity.
Qed.

Lemma renumber_ids (l : list row) (i : Z) :
  map id (renumber i l)
  = map (fun k => (i + Z.of_nat k)%Z) (seq 1 (List.length l)).
Proof.
  revert i; induction l as [|r l IH]; intros i; simpl; [reflexivity|].
  f_equal; try lia.
  rewrite IH, <- (seq_shift (List.length l) 1), map_map.
  apply map_ext. intros k. lia.
Qed.

Lemma renumber_content (l : list row) (i : Z) :
  map content (renumber i l) = map content l.
Proof.
  revert i; induction l as [|r l IH]; intros i; simpl; [reflexivity|].
  rewrite IH. reflexivity.
Qed.

Lemma renumber_stamps (l : list row) (i : Z) :
  map timestamp (renumber i l) = map timestamp l.
Proof.
  revert i; induction l as [|r l IH]; intros i; simpl; [reflexivity|].
  rewrite IH. reflexivity.
Qed.

Lemma sorted_by_stamps (l l' : list row) :
  map timestamp l = map timestamp l' ->
  StronglySorted (not_after stamp_lt timestamp) l ->
  StronglySorted (not_after stamp_lt timestamp) l'.
Proof.
  intros E S. revert l' E.
  induction S as [|r l S IH F]; intros l' E; destruct l' as [|r' l'];
    try discriminate; [constructor|].
  simpl in E. injection E as E1 E2. constructor; [apply IH; exact E2|].
  clear IH S. revert l' E2. induction F as [|x l Hx _ IH];
    intros l' E2; destruct l' as [|x' l']; try discriminate; constructor.
  - simpl in E2. injection E2 as E2 _.
    unfold not_after in *. rewrite <- E1, <- E2. exact Hx.
  - simpl in E2. injection E2 as _ E2. apply IH. exact E2.
Qed.

End ReportFacts.

(** X21.  When the time-off part has added nothing, the rows of the report
    are always produced.  Apart from their numbers they are, in some
    order, one row [Статус] for each status whose timestamp can be read,
    with the translation of the status (the status itself when it has
    none) as value, and one row [Местоположение] for each location
    whose timestamp can be read and whose latitude and longitude are
    numbers or text that [float] accepts, with the translated location
    type and the two floats; statuses and locations that fail these
    tests give no row.  The rows are in non-decreasing order of time
    and numbered 1, 2, 3, ... in that order. *)
Theorem report_rows_numbered_in_time_order
        (strptime strptime_f : string -> option datetime)
        (float_of_text : string -> option R)
        (status_history : list (Fetch.sql_value * pytime))
        (locations : list Report.location) :
  exists rows,
    Report.report_rows strptime strptime_f float_of_text []
                       status_history locations
    = Some rows
    /\ Permutation
         (map Report.content rows)
         (flat_map
            (fun entry =>
               match Report.parse_timestamp strptime strptime_f
                                            (snd entry) with
               | Some d =>
                   [(Report.Named "Статус",
                     Report.Value (Report.display Report.status_translations
                                                  (fst entry)),
                     Report.Naive d)]
               | None => []
               end) status_history
          ++ flat_map
               (fun loc =>
                  match Report.coordinate float_of_text (Report.lat loc),
                        Report.coordinate float_of_text (Report.lon loc),
                        Report.parse_timestamp strptime strptime_f
                                               (Report.ts loc) with
                  | Some la, Some lo, Some d =>
                      [(Report.Location
                          (Report.display Report.location_type_translations
                                          (Report.loc_type loc)),
                        Report.Coordinates la lo,
                        Report.Naive d)]
                  | _, _, _ => []
                  end) locations)
    /\ map Report.id rows
       = map Z.of_nat (seq 1 (List.length rows))
    /\ StronglySorted (not_after Report.stamp_lt Report.timestamp) rows.
Proof.
  unfold Report.report_rows. cbv zeta.
  destruct (add_status_rows strptime strptime_f status_history []
              (Forall_nil _)) as [F1 C1].
  destruct (add_location_rows strptime strptime_f float_of_text locations
              _ F1) as [F2 C2].
  rewrite C1 in C2. cbn [map app] in C2.
  set (data := fold_left
                 (Report.add_location strptime strptime_f float_of_text)
                 locations
                 (fold_left (Report.add_status strptime strptime_f)
                            status_history [])) in *.
  destruct (sort Report.stamp_lt Report.timestamp data) as [sorted|] eqn:S.
  - cbn [bind]. exists (Report.renumber 0 sorted).
    assert (Len : List.length (Report.renumber 0 sorted) = List.length sorted).
    { rewrite <- (length_map Report.timestamp (Report.renumber 0 sorted)),
        renumber_stamps, length_map. reflexivity. }
    split; [reflexivity|]. split; [|split].
    + rewrite renumber_content.
      apply Permutation_sym.
      apply (Permutation_trans
               (l' := map Report.content data));
        [|apply Permutation_map; exact (@sort_perm _ _ _ _ _ _ S)].
      rewrite C2. apply Permutation_refl.
    + rewrite renumber_ids, Len. apply map_ext. intros k. lia.
    + apply (sorted_by_stamps sorted); [symmetry; apply renumber_stamps|].
      apply (@sort_sorted _ _ Report.stamp_lt Report.timestamp
               stamp_lt_asym stamp_le_trans data). exact S.
  - exfalso. revert S.
    apply (sort_returns_on _ _ Report.stamp_lt Report.timestamp
             Report.naive);
      [|exact F2].
    intros x y [dx Hx] [dy Hy]. rewrite Hx, Hy. discriminate.
Qed.

(** ** Ending a location session *)

Section DatabaseFacts.

Import Database.

Variables (new_id : Z) (now : string).
Variable latest : list location_row -> option location_row.
Variables (user : Z) (today session : string).

Lemma set_end_other (target : Z) (r : location_row) :
  id r <> target -> set_end target r = r.
Proof.
  intros H. unfold set_end.
  destruct (Z.eqb_spec (id r) target); [contradiction | reflexivity].
Qed.

Lemma listed_active_intro (table : list location_row) (r : location_row) :
  In r table -> active_row user today r = true ->
  sql_eq_text (session_id r) session = true ->
  listed_active user today session table = true.
Proof.
  intros I A E. unfold listed_active. apply existsb_exists.
  exists r. split; [exact I |]. rewrite A, E. reflexivity.
Qed.

Lemma listed_after_update (table : list location_row) (target : Z)
      (r : location_row) :
  In r table -> id r <> target -> active_row user today r = true ->
  sql_eq_text (session_id r) session = true ->
  listed_active user today session (map (set_end target) table) = true.
Proof.
  intros I N A E. apply (listed_active_intro _ r); try assumption.
  rewrite <- (set_end_other target r N). apply in_map. exact I.
Qed.

Lemma update_nth (table : list location_row) (target : Z) (i : nat)
      (r : location_row) :
  nth_error table i = Some r -> id r <> target ->
  nth_error (map (set_end target) table) i = Some r.
Proof.
  intros H N. rewrite nth_error_map, H. simpl.
  rewrite (set_end_other target r N). reflexivity.
Qed.

Lemma filter_nil_none (f : location_row -> bool) (table : list location_row)
      (r : location_row) :
  filter f table = [] -> In r table -> f r = false.
Proof.
  intros E I. destruct (f r) eqn:F; [| reflexivity].
  assert (In r (filter f table)) as J by (apply filter_In; auto).
  rewrite E in J. destruct J.
Qed.

Lemma picked_in_session (table : list location_row) (r : location_row) :
  (forall l x, latest l = Some x -> In x l) ->
  latest (filter (of_session user session) table) = Some r ->
  In r table /\ of_session user session r = true.
Proof.
  intros L E. apply L in E. apply filter_In in E. exact E.
Qed.

Lemma same_id_same_row (table : list location_row) (r x : location_row) :
  NoDup (map id table) -> In r table -> In x table -> id r = id x -> r = x.
Proof.
  induction table as [| a l IH]; simpl; intros D I J E; [destruct I |].
  inversion D as [| ? ? N D']; subst.
  destruct I as [-> | I], J as [-> | J]; auto.
  - exfalso. apply N. rewrite E. apply in_map. exact J.
  - exfalso. apply N. rewrite <- E. apply in_map. exact I.
Qed.

Lemma update_keeps_others (table : list location_row) (i : nat)
      (r : location_row) :
  NoDup (map id table) ->
  (forall l x, latest l = Some x -> In x l) ->
  nth_error table i = Some r -> of_session user session r = false ->
  nth_error
    match filter (of_session user session) table with
    | [] => table
    | a :: l =>
        match latest (a :: l) with
        | Some x => map (set_end (id x)) table
        | None => table
        end
    end i = Some r.
Proof.
  intros D L H O.
  destruct (filter (of_session user session) table) as [| a l] eqn:F;
    [exact H |].
  destruct (latest (a :: l)) as [x |] eqn:E; [| exact H].
  rewrite <- F in E.
  destruct (picked_in_session table x L E) as [I S].
  apply update_nth; [exact H |].
  intros C. apply nth_error_In in H.
  rewrite (same_id_same_row table r x D H I C) in O. congruence.
Qed.

End DatabaseFacts.

(** X22.  A session of which two rows stamped today are not yet [end] is
    still returned by [get_active_location_sessions] after
    [mark_session_ended], with or without coordinates and whichever row
    the database takes for the most recent one: the call adds one row or
    relabels the rows of one id, it does not touch the others. *)
Theorem session_of_two_points_stays_active
  (new_id : Z) (now : string)
  (latest : list Database.location_row -> option Database.location_row)
  (user : Z) (today session : string) (lat lon : option R)
  (table : list Database.location_row) (r1 r2 : Database.location_row) :
  In r1 table -> In r2 table -> Database.id r1 <> Database.id r2 ->
  Database.active_row user today r1 = true ->
  Database.sql_eq_text (Database.session_id r1) session = true ->
  Database.active_row user today r2 = true ->
  Database.sql_eq_text (Database.session_id r2) session = true ->
  Database.listed_active user today session
    (Database.mark_session_ended new_id now latest session user lat lon table)
  = true.
Proof.
  intros I1 I2 N A1 E1 A2 E2.
  assert (K : Database.listed_active user today session table = true)
    by (apply (listed_active_intro user today session table r1); assumption).
  assert (U : forall target,
             Database.listed_active user today session
               (map (Database.set_end target) table) = true).
  { intros target. destruct (Z.eq_dec (Database.id r1) target) as [C | C].
    - apply (listed_after_update user today session table target r2);
        try assumption. congruence.
    - apply (listed_after_update user today session table target r1);
        assumption. }
  assert (V : Database.listed_active user today session
                match filter (Database.of_session user session) table with
                | [] => table
                | a :: l =>
                    match latest (a :: l) with
                    | Some x => map (Database.set_end (Database.id x)) table
                    | None => table
                    end
                end = true).
  { destruct (filter (Database.of_session user session) table) as [| a l];
      [exact K |].
    destruct (latest (a :: l)); [apply U | exact K]. }
  unfold Database.mark_session_ended.
  destruct lat as [la |], lon as [lo |]; try exact V.
  destruct (Database.truthy (Some la) && Database.truthy (Some lo));
    [| exact V].
  unfold Database.listed_active. rewrite existsb_app.
  unfold Database.listed_active in K. rewrite K. reflexivity.
Qed.

Lemma session_of_two_points_stays_active_witness :
  let r1 := Database.mkrow 1 (Some 7%Z) Fetch.SqlNull Fetch.SqlNull
              (Some "2025-05-07 08:05:00"%string) (Some "s"%string)
              (Some "start"%string) in
  let r2 := Database.mkrow 2 (Some 7%Z) Fetch.SqlNull Fetch.SqlNull
              (Some "2025-05-07 09:00:00"%string) (Some "s"%string)
              (Some "intermediate"%string) in
  Database.listed_active 7 "2025-05-07" "s"
    (Database.mark_session_ended 3 "2025-05-07 17:00:00"
       (fun l => hd_error (rev l)) "s" 7 None None [r1; r2])
  = true.
Proof.
  intros r1 r2.
  apply (session_of_two_points_stays_active 3 "2025-05-07 17:00:00"
           (fun l => hd_error (rev l)) 7 "2025-05-07" "s" None None
           [r1; r2] r1 r2).
  - simpl. auto.
  - simpl. auto.
  - simpl. lia.
  - reflexivity.
  - reflexivity.
  - reflexivity.
  - reflexivity.
Defined.

(** X23.  In a table with distinct ids, [mark_session_ended] leaves every
    row of another user or another session as and where it is, and the
    table grows, by one row, exactly when both coordinates are given and
    different from [0.0]. *)
Theorem mark_session_ended_keeps_other_sessions
  (new_id : Z) (now : string)
  (latest : list Database.location_row -> option Database.location_row)
  (user : Z) (session : string) (lat lon : option R)
  (table : list Database.location_row) :
  NoDup (map Database.id table) ->
  (forall l x, latest l = Some x -> In x l) ->
  (forall i r, nth_error table i = Some r ->
               Database.of_session user session r = false ->
               nth_error (Database.mark_session_ended new_id now latest
                            session user lat lon table) i = Some r)
  /\ List.length (Database.mark_session_ended new_id now latest
                    session user lat lon table)
     = (List.length table
        + if Database.truthy lat && Database.truthy lon then 1 else 0)%nat.
Proof.
  intros D L.
  assert (W : List.length
                match filter (Database.of_session user session) table with
                | [] => table
                | a :: l =>
                    match latest (a :: l) with
                    | Some x => map (Database.set_end (Database.id x)) table
                    | None => table
                    end
                end = (List.length table + 0)%nat).
  { rewrite Nat.add_0_r.
    destruct (filter (Database.of_session user session) table) as [| a l];
      [reflexivity |].
    destruct (latest (a :: l)); [apply length_map | reflexivity]. }
  unfold Database.mark_session_ended.
  destruct lat as [la |], lon as [lo |].
  - destruct (Database.truthy (Some la) && Database.truthy (Some lo)) eqn:T.
    + split.
      * intros i r H _. rewrite nth_error_app1; [exact H |].
        apply nth_error_Some. congruence.
      * rewrite length_app. reflexivity.
    + split; [| exact W].
      intros i r H O.
      apply (update_keeps_others latest user session table i r D L H O).
  - split; [| simpl; rewrite andb_false_r; exact W].
    intros i r H O.
    apply (update_keeps_others latest user session table i r D L H O).
  - split; [| exact W].
    intros i r H O.
    apply (update_keeps_others latest user session table i r D L H O).
  - split; [| exact W].
    intros i r H O.
    apply (update_keeps_others latest user session table i r D L H O).
Qed.

Lemma mark_session_ended_keeps_other_sessions_witness :
  let r1 := Database.mkrow 1 (Some 7%Z) Fetch.SqlNull Fetch.SqlNull
              (Some "2025-05-07 08:05:00"%string) (Some "s"%string)
              (Some "start"%string) in
  let r2 := Database.mkrow 2 (Some 8%Z) Fetch.SqlNull Fetch.SqlNull
              (Some "2025-05-07 09:00:00"%string) (Some "t"%string)
              (Some "intermediate"%string) in
  nth_error (Database.mark_session_ended 3 "2025-05-07 17:00:00"
               (fun l => hd_error (rev l)) "s" 7 None None [r1; r2]) 1
  = Some r2.
Proof.
  intros r1 r2.
  refine (proj1 (mark_session_ended_keeps_other_sessions
                   3 "2025-05-07 17:00:00" (fun l => hd_error (rev l))
                   7 "s" None None [r1; r2] _ _) 1%nat r2 _ _).
  - simpl. repeat constructor; simpl; intuition lia.
  - intros l x H. apply in_rev.
    destruct (rev l); simpl in H; [discriminate |].
    injection H as ->. left. reflexivity.
  - reflexivity.
  - reflexivity.
Defined.
